(** * log-service: the ingest and read-recent Lambda handlers

    A shallow embedding of [lambda/ingest/index.py] and
    [lambda/read_recent/index.py], and the properties of their
    request validation, record construction and retrieval logic.

    Text is [string]; a character stands for the code point of the same
    number (0 to 255).  Among those code points the only decimal digits
    are 0 to 9, which is what [\d] is taken to match below.  The line the
    handlers write to the operational log on the 500 path is left out. *)

From Stdlib Require Import ZArith Ascii String List Bool Lia.
From stdpp Require Import base strings list pretty.

Import ListNotations.
Local Open Scope string_scope.
Local Open Scope Z_scope.

Set Warnings "-register-all".

(** ** Python values *)

Module Py.

(** The values [json.loads] produces, which are also the values the ingest
    handler builds from them and passes to [json.dumps] and to the table.
    A float is carried by its [repr]; a dict keeps its insertion order. *)
Inductive value : Type :=
| VNone
| VBool (b : bool)
| VInt (z : Z)
| VFloat (repr : string)
| VStr (s : string)
| VList (l : list value)
| VDict (d : list (string * value)).

(** The exceptions the handlers can meet. *)
Inductive exc : Type :=
| TypeError
| AttributeError
| KeyError
| JSONDecodeError
| OtherError (name : string).

(** A computation that returns or raises. *)
Inductive result (A : Type) : Type :=
| Ok (a : A)
| Raise (e : exc).
Arguments Ok {A} a.
Arguments Raise {A} e.

Definition bind {A B} (m : result A) (f : A -> result B) : result B :=
  match m with
  | Ok a => f a
  | Raise e => Raise e
  end.

Notation "x <- m ;; k" := (bind m (fun x => k))
  (at level 100, m at next level, right associativity).

(** A computation on each element in turn, up to the first that raises. *)
Definition traverse {A B} (f : A -> result B) : list A -> result (list B) :=
  fix each (l : list A) : result (list B) :=
    match l with
    | [] => Ok []
    | x :: l' =>
        y <- f x ;;
        ys <- each l' ;;
        Ok (y :: ys)
    end.

(** [bool(v)] *)
Definition truthy (v : value) : bool :=
  match v with
  | VNone => false
  | VBool b => b
  | VInt z => negb (z =? 0)
  | VFloat r => negb (String.eqb r "0.0" || String.eqb r "-0.0")
  | VStr s => negb (String.eqb s "")
  | VList l => match l with [] => false | _ => true end
  | VDict d => match d with [] => false | _ => true end
  end.

(** [v is None] *)
Definition is_none (v : value) : bool :=
  match v with VNone => true | _ => false end.

(** [a or b] *)
Definition py_or (a b : value) : value := if truthy a then a else b.

(** Lookup in a dict's items. *)
Fixpoint assoc (k : string) (d : list (string * value)) : option value :=
  match d with
  | [] => None
  | (k', v) :: d' => if String.eqb k k' then Some v else assoc k d'
  end.

(** [v.get(k, default)]: only a dict has the method. *)
Definition get (v : value) (k : string) (default : value) : result value :=
  match v with
  | VDict d => Ok (match assoc k d with Some x => x | None => default end)
  | _ => Raise AttributeError
  end.

(** [v[k]] for a string key. *)
Definition getitem (v : value) (k : string) : result value :=
  match v with
  | VDict d => match assoc k d with Some x => Ok x | None => Raise KeyError end
  | _ => Raise TypeError
  end.

(** [hash(v)] succeeds: lists and dicts are unhashable. *)
Definition hashable (v : value) : bool :=
  match v with
  | VList _ | VDict _ => false
  | _ => true
  end.

(** [v in S] for a set [S] of strings: [v] is hashed first, and only a string
    compares equal to a string. *)
Definition in_str_set (v : value) (S : list string) : result bool :=
  match v with
  | VList _ | VDict _ => Raise TypeError
  | VStr s => Ok (existsb (String.eqb s) S)
  | _ => Ok false
  end.

(** [v != s] for a string [s]. *)
Definition ne_str (v : value) (s : string) : bool :=
  match v with
  | VStr t => negb (String.eqb t s)
  | _ => true
  end.

(** *** [str], [repr] and [json.dumps] *)

Definition hex_digit (n : nat) : ascii :=
  nth n (list_ascii_of_string "0123456789abcdef") "0"%char.

(** Two lowercase hexadecimal digits of a code point below 256. *)
Definition hex2 (n : nat) : string :=
  String (hex_digit (n / 16)) (String (hex_digit (n mod 16)) EmptyString).

Definition dquote : ascii := ascii_of_nat 34.
Definition backslash : ascii := ascii_of_nat 92.

Definition contains_char (c : ascii) (s : string) : bool :=
  existsb (Ascii.eqb c) (list_ascii_of_string s).

(** [str.isprintable] on the code points from 128 to 255: the C1 controls,
    the no-break space and the soft hyphen are not. *)
Definition printable_high (n : nat) : bool :=
  (161 <=? n)%nat && negb (n =? 173)%nat.

Definition repr_char (quote : ascii) (c : ascii) : string :=
  let n := nat_of_ascii c in
  if Ascii.eqb c quote || Ascii.eqb c backslash then String backslash (String c EmptyString)
  else if (n =? 9)%nat then "\t"
  else if (n =? 10)%nat then "\n"
  else if (n =? 13)%nat then "\r"
  else if (n <? 32)%nat || (n =? 127)%nat then "\x" ++ hex2 n
  else if (n <? 127)%nat then String c EmptyString
  else if printable_high n then String c EmptyString
  else "\x" ++ hex2 n.

(** [repr(s)] of a str: single quotes, unless the text has a single quote
    and no double quote. *)
Definition repr_str (s : string) : string :=
  let quote : ascii :=
    if contains_char "'"%char s && negb (contains_char dquote s)
    then dquote else "'"%char in
  String quote
    (String.concat "" (map (repr_char quote) (list_ascii_of_string s))
     ++ String quote EmptyString).

Fixpoint repr (v : value) : string :=
  match v with
  | VNone => "None"
  | VBool b => if b then "True" else "False"
  | VInt z => pretty z
  | VFloat r => r
  | VStr s => repr_str s
  | VList l => "[" ++ String.concat ", " (map repr l) ++ "]"
  | VDict d =>
      "{" ++ String.concat ", "
               (map (fun '(k, x) => repr_str k ++ ": " ++ repr x) d) ++ "}"
  end.

(** [str(v)], which is also what an f-string puts for [{v}]. *)
Definition str (v : value) : string :=
  match v with
  | VStr s => s
  | _ => repr v
  end.

(** One character of a JSON string under [ensure_ascii]. *)
Definition json_char (c : ascii) : string :=
  let n := nat_of_ascii c in
  if Ascii.eqb c dquote then String backslash (String dquote EmptyString)
  else if Ascii.eqb c backslash then "\\"
  else if (n =? 10)%nat then "\n"
  else if (n =? 13)%nat then "\r"
  else if (n =? 9)%nat then "\t"
  else if (n =? 8)%nat then "\b"
  else if (n =? 12)%nat then "\f"
  else if (n <? 32)%nat || (126 <? n)%nat then "\u00" ++ hex2 n
  else String c EmptyString.

Definition json_str (s : string) : string :=
  String dquote
    (String.concat "" (map json_char (list_ascii_of_string s))
     ++ String dquote EmptyString).

Definition json_float (r : string) : string :=
  if String.eqb r "nan" then "NaN"
  else if String.eqb r "inf" then "Infinity"
  else if String.eqb r "-inf" then "-Infinity"
  else r.

(** [json.dumps(v)] with the default separators. *)
Fixpoint dumps (v : value) : string :=
  match v with
  | VNone => "null"
  | VBool b => if b then "true" else "false"
  | VInt z => pretty z
  | VFloat r => json_float r
  | VStr s => json_str s
  | VList l => "[" ++ String.concat ", " (map dumps l) ++ "]"
  | VDict d =>
      "{" ++ String.concat ", "
               (map (fun '(k, x) => json_str k ++ ": " ++ dumps x) d) ++ "}"
  end.

(** [sep.join(sorted(S))] uses the order of code points. *)
Fixpoint str_leb (a b : string) : bool :=
  match a, b with
  | EmptyString, _ => true
  | String _ _, EmptyString => false
  | String x a', String y b' =>
      if (nat_of_ascii x <? nat_of_ascii y)%nat then true
      else if (nat_of_ascii y <? nat_of_ascii x)%nat then false
      else str_leb a' b'
  end.

Fixpoint insert_sorted (x : string) (l : list string) : list string :=
  match l with
  | [] => [x]
  | y :: l' => if str_leb x y then x :: l else y :: insert_sorted x l'
  end.

Definition sorted (l : list string) : list string :=
  fold_right insert_sorted [] l.

End Py.

(** ** Regular expressions, as [re.match] runs them *)

Module Re.

Inductive regex : Type :=
| Eps
| Bol                          (* ^ *)
| Eol                          (* $ *)
| Digit                        (* \d *)
| Lit (c : ascii)              (* a literal character *)
| OneOf (cs : string)          (* [...] *)
| Seq (a b : regex)
| Alt (a b : regex)            (* a|b *)
| Opt (a : regex)              (* a? *)
| Plus (a : regex)             (* a+ *)
| Count (n : nat) (a : regex). (* a{n} *)

Definition is_digit (c : ascii) : bool :=
  let n := nat_of_ascii c in ((48 <=? n) && (n <=? 57))%nat.

Definition newline : ascii := ascii_of_nat 10.

(** [$] without MULTILINE: at the end of the text, or just before a newline
    that ends the text. *)
Definition at_eol (rest : list ascii) : bool :=
  match rest with
  | [] => true
  | [c] => Ascii.eqb c newline
  | _ => false
  end.

(** A backtracking matcher: [go r pos rest k] tries [r] at offset [pos], where
    [rest] is the text from there on, and hands every way of matching it to
    the continuation [k]. *)
Fixpoint go (r : regex) (pos : nat) (rest : list ascii)
    (k : nat -> list ascii -> bool) {struct r} : bool :=
  match r with
  | Eps => k pos rest
  | Bol => (pos =? 0)%nat && k pos rest
  | Eol => at_eol rest && k pos rest
  | Digit =>
      match rest with
      | c :: rest' => is_digit c && k (S pos) rest'
      | [] => false
      end
  | Lit x =>
      match rest with
      | c :: rest' => Ascii.eqb c x && k (S pos) rest'
      | [] => false
      end
  | OneOf cs =>
      match rest with
      | c :: rest' =>
          existsb (Ascii.eqb c) (list_ascii_of_string cs) && k (S pos) rest'
      | [] => false
      end
  | Seq a b => go a pos rest (fun pos' rest' => go b pos' rest' k)
  | Alt a b => go a pos rest k || go b pos rest k
  | Opt a => go a pos rest k || k pos rest
  | Plus a =>
      (fix loop (fuel : nat) (pos : nat) (rest : list ascii) {struct fuel} : bool :=
         match fuel with
         | O => false
         | S fuel' =>
             go a pos rest (fun pos' rest' =>
               ((length rest' <? length rest)%nat && loop fuel' pos' rest')
               || k pos' rest')
         end) (S (length rest)) pos rest
  | Count n a =>
      (fix rep (n : nat) (pos : nat) (rest : list ascii)
           (k : nat -> list ascii -> bool) {struct n} : bool :=
         match n with
         | O => k pos rest
         | S n' => go a pos rest (fun pos' rest' => rep n' pos' rest' k)
         end) n pos rest k
  end.

(** [pattern.match(s) is not None]: the pattern is tried at offset 0 only,
    and need not reach the end of [s]. *)
Definition matches (r : regex) (s : string) : bool :=
  go r 0 (list_ascii_of_string s) (fun _ _ => true).

Definition cat (rs : list regex) : regex := fold_right Seq Eps rs.

End Re.

Import Py.

(** ** What boto3 hands back *)

(** The values in the reply of a call on the table resource.  The
    attributes of an item are what boto3's [TypeDeserializer] builds: a
    stored string is a str, a stored number a [Decimal] (carried by its
    text), a stored binary a [Binary], a stored set a set; null, booleans,
    lists and maps are None, bool, list and dict.  The counters of the reply
    itself are plain ints. *)
Inductive reply : Type :=
| RNone
| RBool (b : bool)
| RInt (z : Z)
| RDecimal (text : string)
| RStr (s : string)
| RBinary (bytes : string)
| RSet (elems : list reply)
| RList (l : list reply)
| RDict (d : list (string * reply)).

Module Boto.

(** Lookup in a dict's items. *)
Fixpoint assoc (k : string) (d : list (string * reply)) : option reply :=
  match d with
  | [] => None
  | (k', v) :: d' => if String.eqb k k' then Some v else assoc k d'
  end.

(** [v.get(k, default)]: only a dict has the method. *)
Definition get (v : reply) (k : string) (default : reply) : result reply :=
  match v with
  | RDict d => Ok (match assoc k d with Some x => x | None => default end)
  | _ => Raise AttributeError
  end.

(** [v[k]] for a string key. *)
Definition getitem (v : reply) (k : string) : result reply :=
  match v with
  | RDict d => match assoc k d with Some x => Ok x | None => Raise KeyError end
  | _ => Raise TypeError
  end.

(** [for x in v]: the elements the loop visits. *)
Definition iter (v : reply) : result (list reply) :=
  match v with
  | RList l | RSet l => Ok l
  | RDict d => Ok (map (fun kv => RStr (fst kv)) d)
  | RStr s => Ok (map (fun c => RStr (String c EmptyString)) (list_ascii_of_string s))
  | _ => Raise TypeError
  end.

(** What [json.dumps] makes of such a value: the JSON value whose text it
    writes, or the [TypeError] it raises at an object it has no encoding
    for, which a [Decimal], a [Binary] and a set are. *)
Fixpoint to_json (v : reply) : result value :=
  match v with
  | RNone => Ok VNone
  | RBool b => Ok (VBool b)
  | RInt z => Ok (VInt z)
  | RStr s => Ok (VStr s)
  | RList l =>
      l' <- traverse to_json l ;;
      Ok (VList l')
  | RDict d =>
      d' <- traverse (fun kv => x <- to_json (snd kv) ;; Ok (fst kv, x)) d ;;
      Ok (VDict d')
  | RDecimal _ | RBinary _ | RSet _ => Raise TypeError
  end.

End Boto.

(** ** What the handlers call outside this repository *)

(** The response of a Lambda Function URL handler. *)
Record response : Type := mkResponse {
  statusCode : Z;
  headers : list (string * string);
  body : string
}.

(** [{"statusCode": code, "headers": {"Content-Type": "application/json"},
     "body": json.dumps(payload)}] *)
Definition json_response (code : Z) (payload : value) : response :=
  {| statusCode := code;
     headers := [("Content-Type", "application/json")];
     body := dumps payload |}.

(** The parameters of [table.query]: the index, the key condition
    [Key(name).eq(value)], the scan direction and the limit. *)
Record query_request : Type := mkQuery {
  IndexName : string;
  KeyName : string;
  KeyValue : string;
  ScanIndexForward : bool;
  Limit : Z
}.

(** The boto3 table: [put_item(Item=item)] and [query(...)].  [T] is the
    state of the table; a call returns or raises, and leaves a state.  The
    item of a write is built by the ingest handler from the values of the
    request; the reply of a query is made of the values boto3 hands back. *)
Class Table (T : Type) : Type := {
  put_item : value -> T -> result unit * T;
  query : query_request -> T -> result reply * T
}.

(** A handler's code runs against the table: it returns or raises, and
    leaves the table in a state. *)
Definition M (T A : Type) : Type := T -> result A * T.

Definition ret {T A} (a : A) : M T A := fun t => (Ok a, t).

(** A step that does not touch the table. *)
Definition lift {T A} (r : result A) : M T A := fun t => (r, t).

Definition bindM {T A B} (m : M T A) (f : A -> M T B) : M T B :=
  fun t =>
    match m t with
    | (Ok a, t') => f a t'
    | (Raise e, t') => (Raise e, t')
    end.

Notation "x <~ m ;; k" := (bindM m (fun x => k))
  (at level 100, m at next level, right associativity).

(** The library functions whose results the handlers only pass on:
    [json.loads] on a str, and [base64.b64decode(s).decode("utf-8")] on a
    str.  [json_loads] raises [JSONDecodeError] on text that is not JSON. *)
Class Library : Type := {
  json_loads : string -> result value;
  b64decode_utf8 : string -> result string
}.

(** What one invocation draws from its environment: the text of
    [str(uuid.uuid4())] and of [datetime.now(timezone.utc).isoformat()]. *)
Record ambient : Type := mkAmbient {
  uuid4 : string;
  utcnow_isoformat : string
}.

(** [json.loads(v)]: a value that is not a str is a [TypeError]. *)
Definition loads `{Library} (v : value) : result value :=
  match v with
  | VStr s => json_loads s
  | _ => Raise TypeError
  end.

(** [base64.b64decode(v).decode("utf-8")] *)
Definition b64decode `{Library} (v : value) : result value :=
  match v with
  | VStr s => s' <- b64decode_utf8 s ;; Ok (VStr s')
  | _ => Raise TypeError
  end.

(** [event.get("requestContext", {}).get("http", {}).get("method", "")] *)
Definition http_method (event : value) : result value :=
  rc <- get event "requestContext" (VDict []) ;;
  http <- get rc "http" (VDict []) ;;
  get http "method" (VStr "").

(** The body of the catch-all [except Exception] of both handlers. *)
Definition internal_error : response :=
  json_response 500 (VDict [("error", VStr "Internal server error")]).

(** ** [lambda/ingest/index.py] *)

Module Ingest.

Definition VALID_SEVERITIES : list string := ["info"; "warning"; "error"].

(** [^\d{4}-\d{2}-\d{2}[T ]\d{2}:\d{2}:\d{2}(\.\d+)?(Z|[+-]\d{2}:?\d{2})?$] *)
Definition ISO8601_RE : Re.regex :=
  Re.cat
    [ Re.Bol;
      Re.Count 4 Re.Digit; Re.Lit "-"; Re.Count 2 Re.Digit; Re.Lit "-";
      Re.Count 2 Re.Digit;
      Re.OneOf "T ";
      Re.Count 2 Re.Digit; Re.Lit ":"; Re.Count 2 Re.Digit; Re.Lit ":";
      Re.Count 2 Re.Digit;
      Re.Opt (Re.Seq (Re.Lit ".") (Re.Plus Re.Digit));
      Re.Opt (Re.Alt (Re.Lit "Z")
                (Re.cat [ Re.OneOf "+-"; Re.Count 2 Re.Digit;
                          Re.Opt (Re.Lit ":"); Re.Count 2 Re.Digit ]));
      Re.Eol ].

(** [errors.append(x)] *)
Definition append (errors : list string) (x : string) : list string :=
  (errors ++ [x])%list.

(** [_validate(body)]: the list of validation error messages. *)
Definition _validate (body : value) : result (list string) :=
  let errors : list string := [] in
  severity <- get body "severity" VNone ;;
  errors <-
    (if is_none severity then
       Ok (append errors "Missing required field: 'severity'")
     else
       known <- in_str_set severity VALID_SEVERITIES ;;
       if negb known then
         Ok (append errors
               ("Invalid severity '" ++ str severity ++ "'. Must be one of: "
                ++ String.concat ", " (sorted VALID_SEVERITIES)))
       else Ok errors) ;;
  message <- get body "message" VNone ;;
  let errors :=
    if negb (truthy message)
    then append errors "Missing required field: 'message'"
    else errors in
  dt <- get body "dateTime" VNone ;;
  let errors :=
    if negb (is_none dt) && negb (Re.matches ISO8601_RE (str dt))
    then append errors
           ("Invalid dateTime format: '" ++ str dt ++ "'. Expected ISO 8601.")
    else errors in
  Ok errors.

Section Handler.
Context `{Library} {T : Type} `{Table T}.

(** [_handle(event)], with the validator it calls as a parameter. *)
Definition _handle_with (validate : value -> result (list string))
    (amb : ambient) (event : value) : M T response :=
  method <~ lift (http_method event) ;;
  if ne_str method "POST" then
    ret (json_response 405
           (VDict [("error",
                    VStr ("Method " ++ str method ++ " not allowed. Use POST."))]))
  else
  raw_body <~ lift (get event "body" (VStr "")) ;;
  flag <~ lift (get event "isBase64Encoded" VNone) ;;
  raw_body <~ lift (if truthy flag then b64decode raw_body else Ok raw_body) ;;
  match (if truthy raw_body then loads raw_body else Ok (VDict [])) with
  | Raise JSONDecodeError =>
      ret (json_response 400
             (VDict [("error", VStr "Request body must be valid JSON")]))
  | Raise e => lift (Raise e)
  | Ok body =>
      errors <~ lift (validate body) ;;
      match errors with
      | _ :: _ =>
          ret (json_response 400 (VDict [("errors", VList (map VStr errors))]))
      | [] =>
          id <~ lift (get body "id" VNone) ;;
          let log_id := py_or id (VStr (uuid4 amb)) in
          dt <~ lift (get body "dateTime" VNone) ;;
          let date_time := py_or dt (VStr (utcnow_isoformat amb)) in
          severity <~ lift (getitem body "severity") ;;
          message <~ lift (getitem body "message") ;;
          let item :=
            VDict [("LogID", log_id);
                   ("DateTime", date_time);
                   ("Severity", severity);
                   ("Message", message);
                   ("LogType", VStr "LOG")] in
          _ <~ put_item item ;;
          ret (json_response 200
                 (VDict [("message", VStr "Log entry created");
                         ("id", log_id);
                         ("dateTime", date_time)]))
      end
  end.

Definition _handle : ambient -> value -> M T response :=
  _handle_with _validate.

(** [handler(event, context)]: any exception becomes the 500 response. *)
Definition handler (amb : ambient) (event : value) (table : T) : response * T :=
  match _handle amb event table with
  | (Ok r, table') => (r, table')
  | (Raise _, table') => (internal_error, table')
  end.

(** [handler], with the message it hands to [logger.exception] in the
    [except] branch (the traceback that the logger adds is left out). *)
Definition handler_logging (amb : ambient) (event : value) (table : T)
    : response * T * option string :=
  match _handle amb event table with
  | (Ok r, table') => (r, table', None)
  | (Raise _, table') =>
      (internal_error, table', Some ("Error processing event: " ++ dumps event))
  end.

End Handler.

End Ingest.

(** ** [lambda/read_recent/index.py] *)

Module ReadRecent.

Definition INDEX_NAME : string := "DateTimeIndex".

(** The dict the list comprehension builds from one item. *)
Definition project (item : reply) : result reply :=
  id <- Boto.getitem item "LogID" ;;
  dt <- Boto.getitem item "DateTime" ;;
  severity <- Boto.getitem item "Severity" ;;
  message <- Boto.getitem item "Message" ;;
  Ok (RDict [("id", id); ("dateTime", dt);
             ("severity", severity); ("message", message)]).

Fixpoint comprehension (f : reply -> result reply) (items : list reply)
    : result (list reply) :=
  match items with
  | [] => Ok []
  | x :: items' =>
      y <- f x ;;
      ys <- comprehension f items' ;;
      Ok (y :: ys)
  end.

Section Handler.
Context {T : Type} `{Table T}.

(** [_handle(event)].  The payload of the 200 answer is built from what the
    query returned, so [json.dumps] can raise on it. *)
Definition _handle (event : value) : M T response :=
  method <~ lift (http_method event) ;;
  if ne_str method "GET" then
    ret (json_response 405
           (VDict [("error",
                    VStr ("Method " ++ str method ++ " not allowed. Use GET."))]))
  else
  response <~ query {| IndexName := INDEX_NAME;
                       KeyName := "LogType";
                       KeyValue := "LOG";
                       ScanIndexForward := false;
                       Limit := 100 |} ;;
  items <~ lift (Boto.get response "Items" (RList [])) ;;
  items <~ lift (Boto.iter items) ;;
  logs <~ lift (comprehension project items) ;;
  payload <~ lift (Boto.to_json
                     (RDict [("count", RInt (Z.of_nat (length logs)));
                             ("logs", RList logs)])) ;;
  ret (json_response 200 payload).

Definition handler (event : value) (table : T) : response * T :=
  match _handle event table with
  | (Ok r, table') => (r, table')
  | (Raise _, table') => (internal_error, table')
  end.

(** [handler], with the message it hands to [logger.exception] in the
    [except] branch (the traceback that the logger adds is left out). *)
Definition handler_logging (event : value) (table : T)
    : response * T * option string :=
  match _handle event table with
  | (Ok r, table') => (r, table', None)
  | (Raise _, table') =>
      (internal_error, table', Some ("Error processing event: " ++ dumps event))
  end.

End Handler.

End ReadRecent.


(** ** Tables and libraries to run the handlers on *)

Module Doubles.

(** The calls a handler makes on the table, in order. *)
Inductive call : Type :=
| PutItem (item : value)
| Query (q : query_request).

(** Any table, with a record of every call made on it, whether the call
    returns or raises. *)
#[export] Instance traced {T : Type} `{Table T} : Table (T * list call) := {
  put_item item st :=
    let '(r, t') := put_item item (fst st) in
    (r, (t', (snd st ++ [PutItem item])%list));
  query q st :=
    let '(r, t') := query q (fst st) in
    (r, (t', (snd st ++ [Query q])%list))
}.

(** What boto3 and the table make of a value on its way in and out again:
    the serializer refuses a float and an int of more than 38 digits, and a
    stored number comes back as a [Decimal]. *)
Fixpoint stored (v : value) : result reply :=
  match v with
  | VNone => Ok RNone
  | VBool b => Ok (RBool b)
  | VInt z =>
      if Z.abs z <? 10 ^ 38 then Ok (RDecimal (pretty z))
      else Raise (OtherError "decimal.DecimalException")
  | VFloat _ => Raise TypeError
  | VStr s => Ok (RStr s)
  | VList l =>
      l' <- traverse stored l ;;
      Ok (RList l')
  | VDict d =>
      d' <- traverse (fun kv => x <- stored (snd kv) ;; Ok (fst kv, x)) d ;;
      Ok (RDict d')
  end.

(** An in-memory table with the key schema of [LogTable]: the partition
    key [LogID], a string, and the index "DateTimeIndex" on [LogType] and
    [DateTime], both strings.  The state is the items in the order they
    were first written.

    [put_item] refuses an item that boto3 cannot serialize, an item without
    a non-empty string as [LogID], and an item whose [DateTime] or [LogType]
    is there but is no non-empty string; otherwise it creates the item or
    overwrites the one with the same [LogID].  [query] knows the one index
    and its key, and wants a [Limit] of at least 1; it returns the items of
    the index whose key attribute has the asked value, by [DateTime] in the
    asked direction, cut at [Limit], each as boto3 hands it back. *)
Definition same_key (k : string) (a b : value) : bool :=
  match getitem a k, getitem b k with
  | Ok (VStr x), Ok (VStr y) => String.eqb x y
  | _, _ => false
  end.

Fixpoint upsert (item : value) (items : list value) : list value :=
  match items with
  | [] => [item]
  | x :: items' =>
      if same_key "LogID" item x then item :: items'
      else x :: upsert item items'
  end.

(** The attribute [k] of the item is a non-empty string; [absent] says what
    holds of an item without the attribute. *)
Definition key_string (absent : bool) (item : value) (k : string) : bool :=
  match item with
  | VDict d =>
      match assoc k d with
      | Some (VStr x) => negb (String.eqb x "")
      | Some _ => false
      | None => absent
      end
  | _ => false
  end.

Definition fits_schema (item : value) : bool :=
  key_string false item "LogID"
  && key_string true item "LogType"
  && key_string true item "DateTime".

Definition sort_key (item : value) : string :=
  match getitem item "DateTime" with
  | Ok v => str v
  | Raise _ => EmptyString
  end.

Fixpoint insert_by_key (x : value) (l : list value) : list value :=
  match l with
  | [] => [x]
  | y :: l' =>
      if str_leb (sort_key x) (sort_key y) then x :: l
      else y :: insert_by_key x l'
  end.

(** The item is in the index, under the asked key value. *)
Definition has_key (q : query_request) (item : value) : bool :=
  match getitem item (KeyName q) with
  | Ok (VStr x) => String.eqb x (KeyValue q) && key_string false item "DateTime"
  | _ => false
  end.

Definition select (q : query_request) (items : list value) : list value :=
  let hits := fold_right insert_by_key [] (List.filter (has_key q) items) in
  let ordered := if ScanIndexForward q then hits else rev hits in
  firstn (Z.to_nat (Limit q)) ordered.

Fixpoint handed_back (items : list value) : list reply :=
  match items with
  | [] => []
  | x :: items' =>
      match stored x with
      | Ok y => y :: handed_back items'
      | Raise _ => handed_back items'
      end
  end.

#[export] Instance memory_table : Table (list value) := {
  put_item item items :=
    match stored item with
    | Raise e => (Raise e, items)
    | Ok _ =>
        if fits_schema item then (Ok tt, upsert item items)
        else (Raise (OtherError "ClientError"), items)
    end;
  query q items :=
    if negb (String.eqb (IndexName q) "DateTimeIndex")
       || negb (String.eqb (KeyName q) "LogType")
       || (Limit q <? 1)
    then (Raise (OtherError "ClientError"), items)
    else
      let found := handed_back (select q items) in
      (Ok (RDict [("Items", RList found);
                  ("Count", RInt (Z.of_nat (length found)))]),
       items)
}.

(** A table that is out of reach: every call raises. *)
#[export] Instance unavailable : Table unit := {
  put_item _ t := (Raise (OtherError "ClientError"), t);
  query _ t := (Raise (OtherError "ClientError"), t)
}.

(** A library given by the finitely many texts it decodes. *)
Fixpoint lookup_text {A : Type} (s : string) (known : list (string * A))
    : option A :=
  match known with
  | [] => None
  | (s', a) :: known' => if String.eqb s s' then Some a else lookup_text s known'
  end.

Definition library_of (json : list (string * value))
    (base64 : list (string * string)) : Library := {|
  json_loads s :=
    match lookup_text s json with
    | Some v => Ok v
    | None => Raise JSONDecodeError
    end;
  b64decode_utf8 s :=
    match lookup_text s base64 with
    | Some t => Ok t
    | None => Raise (OtherError "binascii.Error")
    end
|}.



End Doubles.

Import Doubles.

(** ** The rules of the validator, one by one *)

(** [body.get(k)] on a dict with items [d]. *)
Definition field (d : list (string * value)) (k : string) : value :=
  match assoc k d with
  | Some x => x
  | None => VNone
  end.

Definition missing_severity : string := "Missing required field: 'severity'".
Definition missing_message : string := "Missing required field: 'message'".

Definition invalid_severity (sv : value) : string :=
  "Invalid severity '" ++ str sv ++ "'. Must be one of: error, info, warning".

Definition invalid_dateTime (dt : value) : string :=
  "Invalid dateTime format: '" ++ str dt ++ "'. Expected ISO 8601.".

(** What the first block of [_validate] adds for a [severity] it can hash. *)
Definition severity_errors (sv : value) : list string :=
  match sv with
  | VNone => [missing_severity]
  | VStr s =>
      if existsb (String.eqb s) Ingest.VALID_SEVERITIES then []
      else [invalid_severity sv]
  | _ => [invalid_severity sv]
  end.

Definition message_errors (m : value) : list string :=
  if truthy m then [] else [missing_message].

Definition dateTime_errors (dt : value) : list string :=
  if is_none dt || Re.matches Ingest.ISO8601_RE (str dt) then []
  else [invalid_dateTime dt].

(** ** The stages of the ingest handler *)

(** Lines 81 to 85: the body text after the optional base64 step. *)
Definition raw_body_of `{Library} (event : value) : result value :=
  raw_body <- get event "body" (VStr "") ;;
  flag <- get event "isBase64Encoded" VNone ;;
  if truthy flag then b64decode raw_body else Ok raw_body.

(** Line 88: [json.loads(raw_body) if raw_body else {}]. *)
Definition parsed `{Library} (raw_body : value) : result value :=
  if truthy raw_body then loads raw_body else Ok (VDict []).

Definition malformed_body : response :=
  json_response 400 (VDict [("error", VStr "Request body must be valid JSON")]).

Definition validation_failure (errors : list string) : response :=
  json_response 400 (VDict [("errors", VList (map VStr errors))]).

Definition method_not_allowed (m : value) (expected : string) : response :=
  json_response 405
    (VDict [("error",
             VStr ("Method " ++ str m ++ " not allowed. Use " ++ expected ++ "."))]).

(** The identifier and timestamp an accepted record with items [d] gets. *)
Definition final_id (amb : ambient) (d : list (string * value)) : value :=
  if truthy (field d "id") then field d "id" else VStr (uuid4 amb).

Definition final_dateTime (amb : ambient) (d : list (string * value)) : value :=
  match assoc "dateTime" d with
  | None | Some VNone => VStr (utcnow_isoformat amb)
  | Some dt => dt
  end.

Definition entry (amb : ambient) (d : list (string * value)) : value :=
  VDict [("LogID", final_id amb d);
         ("DateTime", final_dateTime amb d);
         ("Severity", field d "severity");
         ("Message", field d "message");
         ("LogType", VStr "LOG")].

Definition created (amb : ambient) (d : list (string * value)) : response :=
  json_response 200
    (VDict [("message", VStr "Log entry created");
            ("id", final_id amb d);
            ("dateTime", final_dateTime amb d)]).

(** The one query of the read handler. *)
Definition recent_query : query_request :=
  {| IndexName := "DateTimeIndex";
     KeyName := "LogType";
     KeyValue := "LOG";
     ScanIndexForward := false;
     Limit := 100 |}.

(** [d.get(k)] for the attributes [d] of a returned item. *)
Definition attribute (d : list (string * reply)) (k : string) : reply :=
  match Boto.assoc k d with
  | Some x => x
  | None => RNone
  end.

(** A returned item with the four attributes the projection reads. *)
Definition complete (item : reply) : bool :=
  match item with
  | RDict d =>
      forallb (fun k => match Boto.assoc k d with Some _ => true | None => false end)
        ["LogID"; "DateTime"; "Severity"; "Message"]
  | _ => false
  end.

(** The dict the projection builds from a complete item. *)
Definition projected (item : reply) : reply :=
  match item with
  | RDict d =>
      RDict [("id", attribute d "LogID");
             ("dateTime", attribute d "DateTime");
             ("severity", attribute d "Severity");
             ("message", attribute d "Message")]
  | _ => RNone
  end.

(** A value [json.dumps] has an encoding for: no [Decimal], [Binary] or set,
    at any depth. *)
Fixpoint plain (v : reply) : bool :=
  match v with
  | RDecimal _ | RBinary _ | RSet _ => false
  | RList l => forallb plain l
  | RDict d => forallb (fun kv => plain (snd kv)) d
  | _ => true
  end.

(** A returned item the read handler can answer with: the four attributes
    are there, and each is plain. *)
Definition readable (item : reply) : bool :=
  match item with
  | RDict d =>
      forallb (fun k => match Boto.assoc k d with Some x => plain x | None => false end)
        ["LogID"; "DateTime"; "Severity"; "Message"]
  | _ => false
  end.

(** The JSON value of a plain value. *)
Fixpoint json_of (v : reply) : value :=
  match v with
  | RNone | RDecimal _ | RBinary _ | RSet _ => VNone
  | RBool b => VBool b
  | RInt z => VInt z
  | RStr s => VStr s
  | RList l => VList (map json_of l)
  | RDict d => VDict (map (fun kv => (fst kv, json_of (snd kv))) d)
  end.

(** The public shape of a returned item. *)
Definition public (item : reply) : value :=
  match item with
  | RDict d =>
      VDict [("id", json_of (attribute d "LogID"));
             ("dateTime", json_of (attribute d "DateTime"));
             ("severity", json_of (attribute d "Severity"));
             ("message", json_of (attribute d "Message"))]
  | _ => VNone
  end.


(** ** The spec's wording of two rules *)

(** Whitespace-only text, as the spec's rule for [message] names it. *)
Definition is_space (c : ascii) : bool :=
  let n := nat_of_ascii c in
  ((n =? 32) || ((9 <=? n) && (n <=? 13)))%nat.

Definition whitespace_only (s : string) : bool :=
  negb (String.eqb s EmptyString) && forallb is_space (list_ascii_of_string s).

(** The timestamp pattern in the spec's words: [YYYY-MM-DD], then [T] or a
    space, then [HH:MM:SS], then an optional fraction, then an optional
    zone that is [Z] or a signed [HH:MM] or [HHMM]; and nothing else. *)
Fixpoint digits (n : nat) (s : list ascii) : option (list ascii) :=
  match n with
  | O => Some s
  | S n' =>
      match s with
      | c :: s' => if Re.is_digit c then digits n' s' else None
      | [] => None
      end
  end.

Definition expect (ok : ascii -> bool) (s : list ascii) : option (list ascii) :=
  match s with
  | c :: s' => if ok c then Some s' else None
  | [] => None
  end.

Fixpoint skip_digits (s : list ascii) : list ascii :=
  match s with
  | c :: s' => if Re.is_digit c then skip_digits s' else s
  | [] => []
  end.

(** [.] and at least one digit, when the text goes on with a dot. *)
Definition fraction (s : list ascii) : option (list ascii) :=
  match s with
  | c :: s' =>
      if Ascii.eqb c "." then
        match s' with
        | c' :: s'' => if Re.is_digit c' then Some (skip_digits s'') else None
        | [] => None
        end
      else Some s
  | [] => Some s
  end.

(** After the sign of an offset: [HH:MM] or [HHMM], then what [fin] accepts
    as the end. *)
Definition offset (fin : list ascii -> bool) (s : list ascii) : bool :=
  match digits 2 s with
  | Some s' =>
      match s' with
      | c :: s'' =>
          (Ascii.eqb c ":"
           && match digits 2 s'' with Some e => fin e | None => false end)
          || match digits 2 s' with Some e => fin e | None => false end
      | [] => false
      end
  | None => false
  end.

(** The optional zone and the end of the text, where [fin] says what counts
    as the end. *)
Definition zone_until (fin : list ascii -> bool) (s : list ascii) : bool :=
  fin s
  || match s with
     | c :: s' =>
         (Ascii.eqb c "Z" && fin s')
         || ((Ascii.eqb c "+" || Ascii.eqb c "-") && offset fin s')
     | [] => false
     end.

Definition is_nil (s : list ascii) : bool :=
  match s with [] => true | _ => false end.

(** In the spec's words the text ends where the zone ends. *)
Definition zone : list ascii -> bool := zone_until is_nil.

Definition opt_bind {A B} (o : option A) (f : A -> option B) : option B :=
  match o with Some a => f a | None => None end.

Definition is_char (x : ascii) (c : ascii) : bool := Ascii.eqb c x.

(** [YYYY-MM-DD], [T] or a space, [HH:MM:SS]: what is left of the text. *)
Definition date_and_time (l : list ascii) : option (list ascii) :=
  opt_bind (digits 4 l) (fun l =>
  opt_bind (expect (is_char "-") l) (fun l =>
  opt_bind (digits 2 l) (fun l =>
  opt_bind (expect (is_char "-") l) (fun l =>
  opt_bind (digits 2 l) (fun l =>
  opt_bind (expect (fun c => is_char "T" c || is_char " " c) l) (fun l =>
  opt_bind (digits 2 l) (fun l =>
  opt_bind (expect (is_char ":") l) (fun l =>
  opt_bind (digits 2 l) (fun l =>
  opt_bind (expect (is_char ":") l) (fun l =>
  digits 2 l)))))))))).

Definition iso8601_like (s : string) : bool :=
  match opt_bind (date_and_time (list_ascii_of_string s)) fraction with
  | Some rest => zone rest
  | None => false
  end.

(** ** The write, and how a run ends *)

Section Stages.
Context {L : Library} {T : Type} {Tb : Table T}.

(** Lines 105 to 130, which run once the validator has returned no error. *)
Definition write (amb : ambient) (body : value) : M T response :=
  id <~ lift (get body "id" VNone) ;;
  let log_id := py_or id (VStr (uuid4 amb)) in
  dt <~ lift (get body "dateTime" VNone) ;;
  let date_time := py_or dt (VStr (utcnow_isoformat amb)) in
  severity <~ lift (getitem body "severity") ;;
  message <~ lift (getitem body "message") ;;
  _ <~ put_item (VDict [("LogID", log_id);
                        ("DateTime", date_time);
                        ("Severity", severity);
                        ("Message", message);
                        ("LogType", VStr "LOG")]) ;;
  ret (json_response 200
         (VDict [("message", VStr "Log entry created");
                 ("id", log_id);
                 ("dateTime", date_time)])).

(** The same for an accepted record with items [d]: the one write, of
    [entry amb d], and the confirmation. *)
Definition store (amb : ambient) (d : list (string * value)) : M T response :=
  fun table =>
    match put_item (entry amb d) table with
    | (Ok _, table') => (Ok (created amb d), table')
    | (Raise e, table') => (Raise e, table')
    end.

(** Every run of the handler ends in one of two ways: it answers without
    having called the table, or it has accepted a record with items [d] and
    its one call is the write of [entry amb d]. *)
Inductive outcome (amb : ambient) (table : T) : response * T -> Prop :=
| answered (r : response) :
    In (statusCode r) [405; 400; 500] ->
    outcome amb table (r, table)
| wrote (d : list (string * value)) (table' : T) :
    Ingest._validate (VDict d) = Ok [] ->
    put_item (entry amb d) table = (Ok tt, table') ->
    outcome amb table (created amb d, table')
| write_failed (d : list (string * value)) (e : exc) (table' : T) :
    Ingest._validate (VDict d) = Ok [] ->
    put_item (entry amb d) table = (Raise e, table') ->
    outcome amb table (internal_error, table').

End Stages.

(** A table that returns no more items than the query's [Limit]. *)
Definition honours_limit (T : Type) {Tb : Table T} : Prop :=
  forall (q : query_request) (table table' : T) (resp : reply) (items : list reply),
    query q table = (Ok resp, table') ->
    Boto.get resp "Items" (RList []) = Ok (RList items) ->
    Z.of_nat (length items) <= Limit q.

(** ** Reading the pattern *)

(** The continuation at the end of a match: anything may follow. *)
Definition any_end : nat -> list ascii -> bool := fun _ _ => true.

(** [\d+] against a continuation that ignores the offset. *)
Fixpoint some_digits (k : list ascii -> bool) (rest : list ascii) : bool :=
  match rest with
  | c :: rest' => Re.is_digit c && (some_digits k rest' || k rest')
  | [] => false
  end.

(** The texts of a zone. *)
Inductive zone_text : list ascii -> Prop :=
| no_zone : zone_text []
| zulu : zone_text ["Z"%char]
| offset_colon (sg a b c d : ascii) :
    Ascii.eqb sg "+" || Ascii.eqb sg "-" = true ->
    Re.is_digit a = true -> Re.is_digit b = true ->
    Re.is_digit c = true -> Re.is_digit d = true ->
    zone_text [sg; a; b; ":"%char; c; d]
| offset_plain (sg a b c d : ascii) :
    Ascii.eqb sg "+" || Ascii.eqb sg "-" = true ->
    Re.is_digit a = true -> Re.is_digit b = true ->
    Re.is_digit c = true -> Re.is_digit d = true ->
    zone_text [sg; a; b; c; d].

(** A step that reads a fixed stretch of the text, whatever follows. *)
Definition consumes (f : list ascii -> option (list ascii)) : Prop :=
  forall l r, f l = Some r ->
    exists h, l = (h ++ r)%list /\ forall x, f (h ++ x)%list = Some x.

(** Where the text may go on after the fraction: not with a digit, and not
    with a dot. *)
Definition boundary (l : list ascii) : Prop :=
  match l with
  | [] => True
  | c :: _ => Re.is_digit c = false /\ Ascii.eqb c "." = false
  end.

(** ** Sample requests *)

Definition sample_amb : ambient :=
  {| uuid4 := "3f2b8c1e-7a4d-4c1b-9e0a-5d6f7a8b9c0d";
     utcnow_isoformat := "2024-01-15T10:30:00.000000+00:00" |}.

(** An event of a Function URL with the given method and body text. *)
Definition request (method : string) (text : string) : value :=
  VDict [("requestContext", VDict [("http", VDict [("method", VStr method)])]);
         ("body", VStr text);
         ("isBase64Encoded", VBool false)].

(** A library that decodes the JSON text of the given records. *)
Definition sample_library (records : list value) : Library :=
  library_of (map (fun v => (dumps v, v)) records) [].

Definition disk_full : value :=
  VDict [("severity", VStr "error"); ("message", VStr "disk full")].

Definition blank_message : value :=
  VDict [("severity", VStr "info"); ("message", VStr "   ")].

Definition list_severity : value :=
  VDict [("severity", VList []); ("message", VStr "disk full")].

Definition newline_dateTime : value :=
  VDict [("severity", VStr "info"); ("message", VStr "disk full");
         ("dateTime", VStr ("2024-01-15T10:30:00Z" ++ String Re.newline EmptyString))].

Definition older : value :=
  VDict [("LogID", VStr "x1"); ("DateTime", VStr "2024-01-01T00:00:00Z");
         ("Severity", VStr "info"); ("Message", VStr "started");
         ("LogType", VStr "LOG")].

Definition newer : value :=
  VDict [("LogID", VStr "x2"); ("DateTime", VStr "2024-01-02T00:00:00Z");
         ("Severity", VStr "error"); ("Message", VStr "disk full");
         ("LogType", VStr "LOG")].

Definition three_violations : value :=
  VDict [("severity", VDict [("level", VStr "info")]);
         ("dateTime", VStr "yesterday")].

Definition three_violations_hashable : value :=
  VDict [("severity", VStr "fatal"); ("dateTime", VStr "yesterday")].

(** ** What the handlers write and read, for the statements below *)

(** An entry as the ingest handler builds it: the five attributes, a
    [Severity] of the enumeration, a [Message] that counts as true, and
    [LogType] "LOG". *)
Definition well_formed (item : value) : Prop :=
  exists id dt sv msg,
    item = VDict [("LogID", id); ("DateTime", dt); ("Severity", VStr sv);
                  ("Message", msg); ("LogType", VStr "LOG")]
    /\ In sv Ingest.VALID_SEVERITIES
    /\ truthy msg = true.


(** Fourteen characters laid out as a timestamp around the separator. *)
Definition stamp (sep : ascii) (ds : list ascii) : string :=
  match ds with
  | [y1; y2; y3; y4; m1; m2; d1; d2; h1; h2; n1; n2; s1; s2] =>
      string_of_list_ascii
        [y1; y2; y3; y4; "-"%char; m1; m2; "-"%char; d1; d2; sep;
         h1; h2; ":"%char; n1; n2; ":"%char; s1; s2]
  | _ => EmptyString
  end.


(** A POST event with the given body and encoding flag. *)
Definition post_event (body flag : value) : value :=
  VDict [("requestContext", VDict [("http", VDict [("method", VStr "POST")])]);
         ("body", body);
         ("isBase64Encoded", flag)].

Definition with_null_and_more : value :=
  VDict [("severity", VStr "error"); ("message", VStr "disk full");
         ("dateTime", VNone); ("host", VStr "db-1")].

Definition with_id_and_dateTime : value :=
  VDict [("severity", VStr "error"); ("message", VStr "disk full");
         ("id", VStr "x1"); ("dateTime", VStr "2024-01-01T00:00:00Z")].

Definition no_message : value :=
  VDict [("LogID", VStr "x3"); ("DateTime", VStr "2024-01-03T00:00:00Z");
         ("Severity", VStr "info"); ("LogType", VStr "LOG")].




(** ** The validator *)

Lemma get_dict d k : get (VDict d) k VNone = Ok (field d k).
Proof. reflexivity. Qed.

Lemma field_absent d k : assoc k d = None -> field d k = VNone.
Proof. intros E. unfold field. now rewrite E. Qed.

Lemma field_present d k v : assoc k d = Some v -> field d k = v.
Proof. intros E. unfold field. now rewrite E. Qed.

(** Only a dict is validated; anything else has no [get]. *)
Lemma validate_not_dict body :
  (forall d, body <> VDict d) -> Ingest._validate body = Raise AttributeError.
Proof.
  intros Hd. destruct body; try reflexivity. now destruct (Hd d).
Qed.

(** A list or a dict as [severity] cannot be looked up in a set. *)
Lemma validate_unhashable d :
  hashable (field d "severity") = false ->
  Ingest._validate (VDict d) = Raise TypeError.
Proof.
  intros Hh. unfold Ingest._validate. rewrite get_dict. cbn [bind].
  destruct (field d "severity"); try discriminate Hh; reflexivity.
Qed.

(** Otherwise the three rules are checked one after the other, and every
    error is kept. *)
Lemma validate_hashable d :
  hashable (field d "severity") = true ->
  Ingest._validate (VDict d) =
    Ok (severity_errors (field d "severity")
        ++ message_errors (field d "message")
        ++ dateTime_errors (field d "dateTime"))%list.
Proof.
  intros Hh. unfold Ingest._validate. rewrite !get_dict. cbn [bind].
  unfold message_errors, dateTime_errors.
  destruct (field d "severity") as [| b | z | r | s | l | d']; try discriminate Hh;
    cbn [is_none Py.in_str_set bind negb severity_errors];
    try (destruct (existsb (String.eqb s) Ingest.VALID_SEVERITIES); cbn [negb bind]);
    destruct (truthy (field d "message")); cbn [negb];
    destruct (is_none (field d "dateTime")); cbn [negb andb orb];
    try reflexivity;
    destruct (Re.matches Ingest.ISO8601_RE (str (field d "dateTime")));
    reflexivity.
Qed.

Lemma validate_ok_dict body errs :
  Ingest._validate body = Ok errs ->
  exists d, body = VDict d /\ hashable (field d "severity") = true.
Proof.
  intros Hv. destruct body as [| | | | | | d]; try discriminate Hv.
  exists d. split; [reflexivity|].
  destruct (hashable (field d "severity")) eqn:Hh; [reflexivity|].
  rewrite (validate_unhashable d Hh) in Hv. discriminate Hv.
Qed.

(** The messages of the three rules are told apart by their text. *)
Lemma missing_message_not_severity_error sv : ~ In missing_message (severity_errors sv).
Proof.
  destruct sv; try (cbn; intros [E | []]; discriminate E).
  unfold severity_errors.
  destruct (existsb (String.eqb s) Ingest.VALID_SEVERITIES); cbn;
    [tauto | intros [E | []]; discriminate E].
Qed.

Lemma missing_message_not_dateTime_error dt : ~ In missing_message (dateTime_errors dt).
Proof.
  unfold dateTime_errors.
  destruct (is_none dt || Re.matches Ingest.ISO8601_RE (str dt)); cbn;
    [tauto | intros [E | []]; discriminate E].
Qed.

Lemma in_message_errors m : In missing_message (message_errors m) <-> truthy m = false.
Proof.
  unfold message_errors.
  destruct (truthy m); cbn; split; intros; try tauto; try discriminate.
Qed.

Lemma ne_str_true m s : ne_str m s = true <-> m <> VStr s.
Proof.
  destruct m as [| | | | t | |]; cbn; try (split; [discriminate | reflexivity]).
  destruct (String.eqb_spec t s) as [-> | Hne]; cbn; split; congruence.
Qed.

Lemma ne_str_false m s : ne_str m s = false <-> m = VStr s.
Proof.
  destruct m as [| | | | t | |]; cbn; try (split; discriminate).
  destruct (String.eqb_spec t s) as [-> | Hne]; cbn; split; congruence.
Qed.

(** An event with a method is a dict. *)
Lemma http_method_dict event m :
  http_method event = Ok m -> exists ev, event = VDict ev.
Proof.
  destruct event as [| | | | | | ev]; try discriminate. intros _. now exists ev.
Qed.

(** A timestamp the pattern accepts is not one of the values that count as
    false. *)
Lemma matches_truthy dt :
  Re.matches Ingest.ISO8601_RE (str dt) = true -> truthy dt = true.
Proof.
  destruct dt as [| b | z | r | s | l | d]; cbn [truthy].
  - discriminate.
  - destruct b; [reflexivity | discriminate].
  - destruct (Z.eqb_spec z 0) as [-> | _]; [discriminate | reflexivity].
  - destruct (String.eqb_spec r "0.0") as [-> | _]; [discriminate |].
    destruct (String.eqb_spec r "-0.0") as [-> | _]; [discriminate | reflexivity].
  - destruct (String.eqb_spec s "") as [-> | _]; [discriminate | reflexivity].
  - destruct l; [discriminate | reflexivity].
  - destruct d; [discriminate | reflexivity].
Qed.

(** ** The ingest handler, stage by stage *)

Section IngestStages.
Context `{Library} {T : Type} `{Table T}.

Lemma handle_wrong_method validate amb event m (table : T) :
  http_method event = Ok m -> m <> VStr "POST" ->
  Ingest._handle_with validate amb event table
  = (Ok (method_not_allowed m "POST"), table).
Proof.
  intros Hm Hne. apply ne_str_true in Hne.
  unfold Ingest._handle_with, bindM, lift. rewrite Hm, Hne. reflexivity.
Qed.

Lemma handle_post validate amb event raw (table : T) :
  http_method event = Ok (VStr "POST") ->
  raw_body_of event = Ok raw ->
  Ingest._handle_with validate amb event table =
    match parsed raw with
    | Raise JSONDecodeError => (Ok malformed_body, table)
    | Raise e => (Raise e, table)
    | Ok body =>
        match validate body with
        | Raise e => (Raise e, table)
        | Ok (e :: errors) => (Ok (validation_failure (e :: errors)), table)
        | Ok [] => write amb body table
        end
    end.
Proof.
  intros Hm Hraw. unfold Ingest._handle_with, bindM, lift, ret.
  rewrite Hm. cbn [ne_str String.eqb Ascii.eqb Bool.eqb negb].
  unfold raw_body_of in Hraw.
  destruct (get event "body" (VStr "")) as [rb |]; [| discriminate Hraw].
  destruct (get event "isBase64Encoded" VNone) as [flag |]; [| discriminate Hraw].
  cbn [bind] in Hraw. rewrite Hraw. unfold parsed.
  destruct (if truthy raw then loads raw else Ok (VDict [])) as [body | e].
  - destruct (validate body) as [[| e errors] | e]; reflexivity.
  - destruct e; reflexivity.
Qed.

(** What an error-free run of the validator says about the record. *)
Lemma validate_accepts d :
  Ingest._validate (VDict d) = Ok [] ->
  (exists s, assoc "severity" d = Some (VStr s)
             /\ existsb (String.eqb s) Ingest.VALID_SEVERITIES = true)
  /\ (exists m, assoc "message" d = Some m /\ truthy m = true)
  /\ (field d "dateTime" = VNone
      \/ Re.matches Ingest.ISO8601_RE (str (field d "dateTime")) = true).
Proof.
  intros Hv. destruct (validate_ok_dict _ _ Hv) as (d' & Hd & Hh).
  injection Hd as <-. rewrite (validate_hashable d Hh) in Hv.
  injection Hv as Hv.
  apply app_eq_nil in Hv as [Hs Hv]. apply app_eq_nil in Hv as [Hm Hdt].
  repeat split.
  - unfold field in Hs. destruct (assoc "severity" d) as [sv |]; [| discriminate Hs].
    destruct sv as [| | | | s | |]; try discriminate Hs.
    exists s. split; [reflexivity |]. unfold severity_errors in Hs.
    destruct (existsb (String.eqb s) Ingest.VALID_SEVERITIES);
      [reflexivity | discriminate Hs].
  - unfold message_errors, field in Hm.
    destruct (assoc "message" d) as [m |]; [| discriminate Hm].
    exists m. split; [reflexivity |].
    destruct (truthy m); [reflexivity | discriminate Hm].
  - unfold dateTime_errors in Hdt.
    destruct (field d "dateTime") as [| | | | | |] eqn:E; cbn [is_none orb] in Hdt;
      try (now left); right;
      match type of Hdt with
      | (if ?b then _ else _) = _ => destruct b; [reflexivity | discriminate Hdt]
      end.
Qed.

Lemma final_dateTime_or amb d :
  field d "dateTime" = VNone
  \/ Re.matches Ingest.ISO8601_RE (str (field d "dateTime")) = true ->
  py_or (field d "dateTime") (VStr (utcnow_isoformat amb)) = final_dateTime amb d.
Proof.
  unfold final_dateTime, field, py_or.
  destruct (assoc "dateTime" d) as [dt |]; [| reflexivity].
  intros [-> | Hm]; [reflexivity |].
  rewrite (matches_truthy dt Hm). destruct dt; try reflexivity. discriminate Hm.
Qed.

(** An accepted record is written as [entry amb d], once. *)
Lemma write_accepted amb d (table : T) :
  Ingest._validate (VDict d) = Ok [] ->
  write amb (VDict d) table = store amb d table.
Proof.
  intros Hv. destruct (validate_accepts d Hv) as ((s & Hs & _) & (m & Hm & _) & Hdt).
  unfold write, store, bindM, lift, ret. rewrite !get_dict.
  cbn [getitem]. rewrite Hs, Hm.
  rewrite (final_dateTime_or amb d Hdt).
  unfold entry, created, final_id, py_or.
  rewrite (field_present _ _ _ Hs), (field_present _ _ _ Hm).
  destruct (put_item _ table) as [[[] | e] table']; reflexivity.
Qed.

End IngestStages.

Section IngestOutcomes.
Context {L : Library} {T : Type} {Tb : Table T}.

Lemma handle_no_method validate amb event e (table : T) :
  http_method event = Raise e ->
  Ingest._handle_with validate amb event table = (Raise e, table).
Proof.
  intros Hm. unfold Ingest._handle_with, bindM, lift. now rewrite Hm.
Qed.

Lemma handle_no_body validate amb event e (table : T) :
  http_method event = Ok (VStr "POST") ->
  raw_body_of event = Raise e ->
  Ingest._handle_with validate amb event table = (Raise e, table).
Proof.
  intros Hm Hraw. unfold Ingest._handle_with, bindM, lift, ret.
  rewrite Hm. cbn [ne_str String.eqb Ascii.eqb Bool.eqb negb].
  unfold raw_body_of in Hraw.
  destruct (get event "body" (VStr "")) as [rb |]; [| now injection Hraw as <-].
  destruct (get event "isBase64Encoded" VNone) as [flag |];
    [| now injection Hraw as <-].
  cbn [bind] in Hraw. now rewrite Hraw.
Qed.

Lemma handler_outcome amb event (table : T) :
  outcome amb table (Ingest.handler amb event table).
Proof.
  unfold Ingest.handler, Ingest._handle.
  destruct (http_method event) as [m | e] eqn:Hm.
  2:{ rewrite (handle_no_method _ _ _ _ _ Hm). apply answered. cbn. tauto. }
  destruct (ne_str m "POST") eqn:Hne.
  { apply ne_str_true in Hne. rewrite (handle_wrong_method _ _ _ _ _ Hm Hne).
    apply answered. cbn. tauto. }
  apply ne_str_false in Hne. subst m.
  destruct (raw_body_of event) as [raw | e] eqn:Hraw.
  2:{ rewrite (handle_no_body _ _ _ _ _ Hm Hraw). apply answered. cbn. tauto. }
  rewrite (handle_post _ _ _ _ _ Hm Hraw).
  destruct (parsed raw) as [body | e].
  2:{ destruct e; apply answered; cbn; tauto. }
  destruct (Ingest._validate body) as [[| e errors] | e] eqn:Hv.
  - destruct (validate_ok_dict _ _ Hv) as (d & -> & _).
    rewrite (write_accepted amb d table Hv). unfold store.
    destruct (put_item (entry amb d) table) as [[[] | e] table'] eqn:Hput.
    + exact (wrote amb table d table' Hv Hput).
    + exact (write_failed amb table d e table' Hv Hput).
  - apply answered. cbn. tauto.
  - apply answered. cbn. tauto.
Qed.

End IngestOutcomes.

(** ** Values on their way through [json.dumps] and the table *)

Lemma forallb_Exists_false {A} (f : A -> bool) l :
  forallb f l = false <-> Exists (fun x => f x = false) l.
Proof.
  induction l as [| x l IH]; cbn [forallb].
  - split; [discriminate | intros H; inversion H].
  - destruct (f x) eqn:E; cbn [andb].
    + rewrite IH. split; [now right |].
      intros H. inversion H as [? ? Hx | ? ? Hl]; [| exact Hl].
      rewrite E in Hx. discriminate Hx.
    + split; [now left | reflexivity].
Qed.

Lemma traverse_ok {A B} (f : A -> result B) (g : A -> B) l :
  Forall (fun x => f x = Ok (g x)) l -> traverse f l = Ok (map g l).
Proof.
  induction 1 as [| x l Hx _ IH]; [reflexivity |].
  cbn [traverse map]. fold (traverse f). now rewrite Hx, IH.
Qed.

Lemma traverse_raise {A B} (f : A -> result B) e l :
  Forall (fun x => f x = Raise e \/ exists y, f x = Ok y) l ->
  Exists (fun x => f x = Raise e) l ->
  traverse f l = Raise e.
Proof.
  induction 1 as [| x l Hx Hl IH]; intros Hex; [inversion Hex |].
  cbn [traverse]. fold (traverse f).
  destruct Hx as [Hx | (y & Hx)]; rewrite Hx; [reflexivity |]. cbn [bind].
  inversion Hex as [? ? Hbad | ? ? Hrest]; subst; [congruence |].
  now rewrite (IH Hrest).
Qed.


Lemma reply_nested_ind (P : reply -> Prop) :
  P RNone -> (forall b, P (RBool b)) -> (forall z, P (RInt z)) ->
  (forall t, P (RDecimal t)) -> (forall s, P (RStr s)) ->
  (forall b, P (RBinary b)) ->
  (forall l, Forall P l -> P (RSet l)) ->
  (forall l, Forall P l -> P (RList l)) ->
  (forall d, Forall (fun kv => P (snd kv)) d -> P (RDict d)) ->
  forall v, P v.
Proof.
  intros HN HB HI HD HS HBin HSet HL HDict. fix IH 1.
  intros [| b | z | t | s | b | l | l | d];
    [exact HN | apply HB | apply HI | apply HD | apply HS | apply HBin | | |].
  - apply HSet. induction l as [| x l IHl]; constructor; [apply IH | exact IHl].
  - apply HL. induction l as [| x l IHl]; constructor; [apply IH | exact IHl].
  - apply HDict. induction d as [| [k x] d IHd]; constructor; [apply IH | exact IHd].
Qed.


(** [json.dumps] writes a plain value, and raises [TypeError] on any
    other. *)
Lemma to_json_plain v :
  Boto.to_json v = if plain v then Ok (json_of v) else Raise TypeError.
Proof.
  induction v as [| b | z | t | s | b | l IH | l IH | d IH] using reply_nested_ind;
    try reflexivity.
  - cbn [Boto.to_json plain json_of].
    destruct (forallb plain l) eqn:Hp.
    + rewrite (traverse_ok Boto.to_json json_of); [reflexivity |].
      rewrite forallb_forall in Hp. rewrite List.Forall_forall in *.
      intros x Hx. now rewrite (IH x Hx), (Hp x Hx).
    + rewrite (traverse_raise Boto.to_json TypeError); [reflexivity | |].
      * rewrite List.Forall_forall in *. intros x Hx. rewrite (IH x Hx).
        destruct (plain x); [right; now eexists | now left].
      * apply forallb_Exists_false in Hp.
        rewrite List.Exists_exists in *. destruct Hp as (x & Hx & Hpx).
        exists x. split; [exact Hx |]. rewrite List.Forall_forall in IH.
        now rewrite (IH x Hx), Hpx.
  - cbn [Boto.to_json plain json_of].
    destruct (forallb (fun kv => plain (snd kv)) d) eqn:Hp.
    + rewrite (traverse_ok _ (fun kv => (fst kv, json_of (snd kv))));
        [reflexivity |].
      rewrite forallb_forall in Hp. rewrite List.Forall_forall in *.
      intros x Hx. now rewrite (IH x Hx), (Hp x Hx).
    + rewrite (traverse_raise _ TypeError); [reflexivity | |].
      * rewrite List.Forall_forall in *. intros x Hx. rewrite (IH x Hx).
        destruct (plain (snd x)); [right; now eexists | now left].
      * apply forallb_Exists_false in Hp.
        rewrite List.Exists_exists in *. destruct Hp as (x & Hx & Hpx).
        exists x. split; [exact Hx |]. rewrite List.Forall_forall in IH.
        now rewrite (IH x Hx), Hpx.
Qed.

Lemma readable_complete item :
  readable item = complete item && plain (projected item).
Proof.
  destruct item as [| | | | | | | | d]; try reflexivity.
  cbn [readable complete projected plain forallb snd]. unfold attribute.
  destruct (Boto.assoc "LogID" d) as [a |]; [| reflexivity].
  destruct (Boto.assoc "DateTime" d) as [b |];
    [| now rewrite ?andb_false_r].
  destruct (Boto.assoc "Severity" d) as [c |];
    [| now rewrite ?andb_false_r].
  destruct (Boto.assoc "Message" d) as [m |];
    [| now rewrite ?andb_false_r].
  reflexivity.
Qed.

Lemma readable_all_complete items :
  forallb readable items = true -> forallb complete items = true.
Proof.
  rewrite !forallb_forall. intros H x Hx. specialize (H x Hx).
  rewrite readable_complete in H. now apply andb_prop in H.
Qed.

Lemma public_projected item :
  complete item = true -> json_of (projected item) = public item.
Proof.
  destruct item as [| | | | | | | | d]; try discriminate. reflexivity.
Qed.

(** The payload of the 200 answer for readable items. *)
Lemma payload_readable items (n : Z) :
  forallb readable items = true ->
  Boto.to_json (RDict [("count", RInt n); ("logs", RList (map projected items))])
  = Ok (VDict [("count", VInt n); ("logs", VList (map public items))]).
Proof.
  intros Hr. rewrite to_json_plain. cbn [plain forallb snd].
  assert (Hp : forallb plain (map projected items) = true).
  { rewrite forallb_forall in *. intros y (x & <- & Hx)%in_map_iff.
    specialize (Hr x Hx). rewrite readable_complete in Hr.
    now apply andb_prop in Hr. }
  rewrite Hp. cbn [andb json_of map fst snd]. rewrite map_map.
  assert (E : map (fun x => json_of (projected x)) items = map public items);
    [| now rewrite E].
  apply map_ext_in. intros x Hx. apply public_projected.
  rewrite forallb_forall in Hr. specialize (Hr x Hx).
  rewrite readable_complete in Hr. now apply andb_prop in Hr.
Qed.

(** The payload for complete items of which one is not readable. *)
Lemma payload_unreadable items (n : Z) :
  forallb complete items = true ->
  forallb readable items = false ->
  Boto.to_json (RDict [("count", RInt n); ("logs", RList (map projected items))])
  = Raise TypeError.
Proof.
  intros Hc Hr. rewrite to_json_plain. cbn [plain forallb snd].
  assert (Hp : forallb plain (map projected items) = false).
  { apply forallb_Exists_false in Hr. apply forallb_Exists_false.
    rewrite List.Exists_exists in *. destruct Hr as (x & Hx & Hrx).
    exists (projected x). split; [now apply in_map |].
    rewrite readable_complete in Hrx. rewrite forallb_forall in Hc.
    now rewrite (Hc x Hx) in Hrx. }
  now rewrite Hp.
Qed.


(** ** The read handler *)

Section ReadFacts.
Context {T : Type} {Tb : Table T}.

Lemma read_wrong_method event m (table : T) :
  http_method event = Ok m -> m <> VStr "GET" ->
  ReadRecent._handle event table = (Ok (method_not_allowed m "GET"), table).
Proof.
  intros Hm Hne. apply ne_str_true in Hne.
  unfold ReadRecent._handle, bindM, lift. rewrite Hm, Hne. reflexivity.
Qed.

(** After the method check the read handler is one query and a
    computation on its result. *)
Lemma read_handle_get event (table : T) :
  http_method event = Ok (VStr "GET") ->
  ReadRecent._handle event table
  = (bind (fst (query recent_query table)) (fun response =>
       items <- Boto.get response "Items" (RList []) ;;
       items <- Boto.iter items ;;
       logs <- ReadRecent.comprehension ReadRecent.project items ;;
       payload <- Boto.to_json
                    (RDict [("count", RInt (Z.of_nat (length logs)));
                            ("logs", RList logs)]) ;;
       Ok (json_response 200 payload)),
     snd (query recent_query table)).
Proof.
  intros Hm. unfold ReadRecent._handle, bindM, lift, ret. rewrite Hm.
  cbn [ne_str String.eqb Ascii.eqb Bool.eqb negb].
  change (mkQuery ReadRecent.INDEX_NAME "LogType" "LOG" false 100) with recent_query.
  destruct (query recent_query table) as [[resp | e] table']; [| reflexivity].
  cbn [fst snd bind].
  destruct (Boto.get resp "Items" (RList [])) as [items | e]; [| reflexivity].
  cbn [bind]. destruct (Boto.iter items) as [l | e]; [| reflexivity].
  cbn [bind].
  destruct (ReadRecent.comprehension ReadRecent.project l) as [logs | e];
    [| reflexivity].
  cbn [bind].
  destruct (Boto.to_json
              (RDict [("count", RInt (Z.of_nat (length logs))); ("logs", RList logs)]));
    reflexivity.
Qed.

Lemma read_handle_no_method event e (table : T) :
  http_method event = Raise e ->
  ReadRecent._handle event table = (Raise e, table).
Proof.
  intros Hm. unfold ReadRecent._handle, bindM, lift. now rewrite Hm.
Qed.



Lemma project_incomplete item :
  complete item = false -> exists e, ReadRecent.project item = Raise e.
Proof.
  destruct item as [| | | | | | | | d]; try (intros _; now exists TypeError).
  cbn [complete forallb]. unfold ReadRecent.project, Boto.getitem.
  destruct (Boto.assoc "LogID" d); [| intros _; now exists KeyError].
  destruct (Boto.assoc "DateTime" d); [| intros _; now exists KeyError].
  destruct (Boto.assoc "Severity" d); [| intros _; now exists KeyError].
  destruct (Boto.assoc "Message" d); [discriminate | intros _; now exists KeyError].
Qed.

Lemma project_complete item :
  complete item = true -> ReadRecent.project item = Ok (projected item).
Proof.
  destruct item as [| | | | | | | | d]; try discriminate. cbn [complete forallb].
  unfold ReadRecent.project, Boto.getitem, projected, attribute.
  destruct (Boto.assoc "LogID" d); [| discriminate].
  destruct (Boto.assoc "DateTime" d); [| discriminate].
  destruct (Boto.assoc "Severity" d); [| discriminate].
  destruct (Boto.assoc "Message" d); [| discriminate].
  reflexivity.
Qed.

Lemma comprehension_complete items :
  forallb complete items = true ->
  ReadRecent.comprehension ReadRecent.project items = Ok (map projected items).
Proof.
  induction items as [| item items IH]; [reflexivity |].
  cbn [forallb]. intros [Hi Hrest]%andb_prop.
  cbn [ReadRecent.comprehension map].
  now rewrite (project_complete item Hi), (IH Hrest).
Qed.

Lemma comprehension_incomplete items :
  forallb complete items = false ->
  exists e, ReadRecent.comprehension ReadRecent.project items = Raise e.
Proof.
  induction items as [| item items IH]; [discriminate |].
  cbn [forallb ReadRecent.comprehension]. destruct (complete item) eqn:Hc.
  - cbn [andb]. intros Hrest. destruct (IH Hrest) as (e & He).
    rewrite (project_complete item Hc), He. now exists e.
  - intros _. destruct (project_incomplete item Hc) as (e & He).
    rewrite He. now exists e.
Qed.

(** A GET whose query returns items of which one is not readable. *)
Lemma read_unreadable event (table table' : T) resp items :
  http_method event = Ok (VStr "GET") ->
  query recent_query table = (Ok resp, table') ->
  Boto.get resp "Items" (RList []) = Ok (RList items) ->
  forallb readable items = false ->
  ReadRecent.handler event table = (internal_error, table').
Proof.
  intros Hm Hq Hi Hr. unfold ReadRecent.handler.
  rewrite (read_handle_get _ _ Hm), Hq. cbn [fst snd bind]. rewrite Hi.
  cbn [bind Boto.iter]. destruct (forallb complete items) eqn:Hc.
  - rewrite (comprehension_complete items Hc). cbn [bind].
    now rewrite (payload_unreadable items _ Hc Hr).
  - destruct (comprehension_incomplete items Hc) as (e & ->). reflexivity.
Qed.

(** A GET whose query returns readable items [items]. *)
Lemma read_ok event (table table' : T) resp items :
  http_method event = Ok (VStr "GET") ->
  query recent_query table = (Ok resp, table') ->
  Boto.get resp "Items" (RList []) = Ok (RList items) ->
  forallb readable items = true ->
  ReadRecent.handler event table
  = (json_response 200
       (VDict [("count", VInt (Z.of_nat (length items)));
               ("logs", VList (map public items))]),
     table').
Proof.
  intros Hm Hq Hi Hc. unfold ReadRecent.handler, ReadRecent._handle, bindM, lift, ret.
  rewrite Hm. cbn [ne_str String.eqb Ascii.eqb Bool.eqb negb].
  change (mkQuery ReadRecent.INDEX_NAME "LogType" "LOG" false 100) with recent_query.
  rewrite Hq, Hi. cbn [Boto.iter].
  rewrite (comprehension_complete items (readable_all_complete items Hc)).
  cbn [bind]. now rewrite length_map, (payload_readable items _ Hc).
Qed.

End ReadFacts.

(** ** Method enforcement *)



(** ** Malformed and empty bodies *)




(** ** Writes *)

(** C4: an ingest request answered with a 4xx status leaves the table as it
    was; since [T] is any table, also one that records each call, no call
    was made on it.  An answer of 200 comes with exactly one write that
    returned, of the accepted record. *)
Theorem client_error_no_write {L : Library} {T : Type} {Tb : Table T}
    (amb : ambient) (event : value) (table table' : T) (r : response) :
  Ingest.handler amb event table = (r, table') ->
  (400 <= statusCode r < 500 -> table' = table)
  /\ (statusCode r = 200 ->
      exists d, Ingest._validate (VDict d) = Ok []
                /\ put_item (entry amb d) table = (Ok tt, table')
                /\ r = created amb d).
Proof.
  intros Hrun. pose proof (handler_outcome amb event table) as Hout.
  rewrite Hrun in Hout. inversion Hout as [r0 Hcode | d t' Hv Hput | d e t' Hv Hput]; subst.
  - split; [reflexivity |]. intros E. rewrite E in Hcode.
    cbn in Hcode. intuition discriminate.
  - split; [cbn; lia |]. intros _. now exists d.
  - split; cbn; [lia | discriminate].
Qed.

Lemma client_error_no_write_witness :
  statusCode
    (fst (Ingest.handler (H := sample_library []) sample_amb
            (request "POST" "") ([] : list value, [] : list call))) = 400
  /\ snd (Ingest.handler (H := sample_library []) sample_amb
            (request "POST" "") ([] : list value, [] : list call)) = ([], []).
Proof.
  split; [reflexivity |].
  refine (proj1 (client_error_no_write (L := sample_library []) sample_amb
                   (request "POST" "") ([], []) ([], [])
                   (validation_failure [missing_severity; missing_message])
                   eq_refl) _).
  cbn. lia.
Defined.



(** ** Reading the recent entries *)



Lemma traced_honours_limit (T : Type) {Tb : Table T} :
  honours_limit T -> honours_limit (T * list call).
Proof.
  intros Hl q [t log] [t' log'] resp items Hq Hi. cbn in Hq.
  destruct (query q t) as [r t''] eqn:E. injection Hq as -> -> _.
  exact (Hl q t t' resp items E Hi).
Qed.




(** ** The rule for [message] *)

(** C1 as stated fails here: a record with a message of three spaces
    passes validation and is written; whitespace-only text is not treated
    as absent. *)
Lemma blank_message_accepted :
  whitespace_only "   " = true
  /\ Ingest._validate blank_message = Ok []
  /\ Ingest.handler (H := sample_library [blank_message]) sample_amb
       (request "POST" (dumps blank_message)) ([] : list value)
     = (json_response 200
          (VDict [("message", VStr "Log entry created");
                  ("id", VStr (uuid4 sample_amb));
                  ("dateTime", VStr (utcnow_isoformat sample_amb))]),
        [VDict [("LogID", VStr (uuid4 sample_amb));
                ("DateTime", VStr (utcnow_isoformat sample_amb));
                ("Severity", VStr "info");
                ("Message", VStr "   ");
                ("LogType", VStr "LOG")]]).
Proof. repeat split; vm_compute; reflexivity. Qed.

(** C1, amended: on a record whose [severity] the validator can check
    (absent, null, or anything but a list or dict), the validator reports
    "Missing required field: 'message'" exactly when [message] is absent,
    null, or another value that counts as false, such as the empty string;
    a message of whitespace only is not reported.  When it is reported, a
    POST with that record is answered with status 400 and the errors, and
    the table is left as it was. *)
Theorem message_required {L : Library} {T : Type} {Tb : Table T}
    (amb : ambient) (event raw : value) (d : list (string * value)) (table : T) :
  hashable (field d "severity") = true ->
  exists errors,
    Ingest._validate (VDict d) = Ok errors
    /\ (In "Missing required field: 'message'" errors
        <-> truthy (field d "message") = false)
    /\ (assoc "message" d = None \/ assoc "message" d = Some VNone
        \/ assoc "message" d = Some (VStr EmptyString) ->
        In "Missing required field: 'message'" errors)
    /\ (forall s, assoc "message" d = Some (VStr s) -> whitespace_only s = true ->
                  ~ In "Missing required field: 'message'" errors)
    /\ (In "Missing required field: 'message'" errors ->
        http_method event = Ok (VStr "POST") ->
        raw_body_of event = Ok raw ->
        parsed raw = Ok (VDict d) ->
        Ingest.handler amb event table
        = (json_response 400 (VDict [("errors", VList (map VStr errors))]), table)).
Proof.
  intros Hh. eexists. split; [exact (validate_hashable d Hh) |].
  assert (Hiff : In missing_message
                   (severity_errors (field d "severity")
                    ++ message_errors (field d "message")
                    ++ dateTime_errors (field d "dateTime"))%list
                 <-> truthy (field d "message") = false).
  { rewrite !in_app_iff, in_message_errors.
    pose proof (missing_message_not_severity_error (field d "severity")).
    pose proof (missing_message_not_dateTime_error (field d "dateTime")).
    tauto. }
  change "Missing required field: 'message'" with missing_message.
  split; [exact Hiff |]. split; [| split].
  - intros Hcase. apply Hiff. unfold field.
    destruct Hcase as [-> | [-> | ->]]; reflexivity.
  - intros s Hs Hw Hin. apply Hiff in Hin.
    rewrite (field_present _ _ _ Hs) in Hin. cbn [truthy] in Hin.
    unfold whitespace_only in Hw. destruct (String.eqb s ""); discriminate.
  - intros Hin Hm Hraw Hp. unfold Ingest.handler, Ingest._handle.
    rewrite (handle_post _ _ _ _ _ Hm Hraw), Hp, (validate_hashable d Hh).
    destruct (severity_errors (field d "severity")
              ++ message_errors (field d "message")
              ++ dateTime_errors (field d "dateTime"))%list as [| e errors];
      [destruct Hin | reflexivity].
Qed.

Lemma message_required_witness :
  exists errors,
    Ingest._validate (VDict [("severity", VStr "info"); ("message", VStr "")])
    = Ok errors
    /\ In "Missing required field: 'message'" errors.
Proof.
  destruct (message_required (L := sample_library []) (T := list value) sample_amb
              (request "POST" "") (VStr "")
              [("severity", VStr "info"); ("message", VStr "")] [] eq_refl)
    as (errors & Hv & _ & Hin & _).
  exists errors. split; [exact Hv |]. apply Hin. right. right. reflexivity.
Defined.

(** ** The rule for [severity] *)

(** C10: a [severity] key bound to null is reported as the missing field,
    first in the list, and never as an invalid value; the validator returns
    what it returns for the same record without the key. *)
Theorem null_severity_is_missing (d : list (string * value)) :
  assoc "severity" d = Some VNone ->
  (exists rest,
      Ingest._validate (VDict d)
      = Ok ("Missing required field: 'severity'" :: rest)
      /\ forall v, ~ In (invalid_severity v)
                        ("Missing required field: 'severity'" :: rest))
  /\ (forall d',
         assoc "severity" d' = None ->
         field d' "message" = field d "message" ->
         field d' "dateTime" = field d "dateTime" ->
         Ingest._validate (VDict d') = Ingest._validate (VDict d)).
Proof.
  intros Hs. pose proof (field_present _ _ _ Hs) as Hf.
  assert (Hh : hashable (field d "severity") = true) by now rewrite Hf.
  split.
  - eexists. rewrite (validate_hashable d Hh), Hf. split; [reflexivity |].
    intros v [E | Hin]; [discriminate E |].
    apply in_app_or in Hin as [Hin | Hin].
    + unfold message_errors in Hin.
      destruct (truthy (field d "message")); [destruct Hin |].
      destruct Hin as [E | []]. discriminate E.
    + unfold dateTime_errors in Hin.
      destruct (is_none (field d "dateTime")
                || Re.matches Ingest.ISO8601_RE (str (field d "dateTime")));
        [destruct Hin |].
      destruct Hin as [E | []]. discriminate E.
  - intros d' Hs' Hmsg Hdt. pose proof (field_absent _ _ Hs') as Hf'.
    rewrite (validate_hashable d Hh), (validate_hashable d') by now rewrite Hf'.
    now rewrite Hf, Hf', Hmsg, Hdt.
Qed.

Lemma null_severity_is_missing_witness :
  exists rest,
    Ingest._validate (VDict [("severity", VNone); ("message", VStr "disk full")])
    = Ok ("Missing required field: 'severity'" :: rest)
    /\ forall v, ~ In (invalid_severity v)
                      ("Missing required field: 'severity'" :: rest).
Proof.
  exact (proj1 (null_severity_is_missing
                  [("severity", VNone); ("message", VStr "disk full")] eq_refl)).
Defined.

(** C5: the record [{"severity": [], "message": "disk full"}] has a
    [severity] that is present and is none of info, warning, error, yet the
    validator returns no invalid-value error for it: the membership test
    raises [TypeError], and the handler answers with status 500. *)
Lemma list_severity_raises :
  Ingest._validate list_severity = Raise TypeError
  /\ Ingest.handler (H := sample_library [list_severity]) sample_amb
       (request "POST" (dumps list_severity)) ([] : list value)
     = (json_response 500 (VDict [("error", VStr "Internal server error")]), []).
Proof. split; vm_compute; reflexivity. Qed.

(** C7: the record [{"severity": {"level": "info"}, "dateTime": "yesterday"}]
    violates all three rules, yet the validator returns no list: the check of
    [severity] raises [TypeError] before the other two fields are looked at.
    With the str "fatal" in its place the three errors come back together. *)
Lemma unhashable_severity_cuts_validation_short :
  Ingest._validate three_violations = Raise TypeError
  /\ Ingest._validate three_violations_hashable
     = Ok ["Invalid severity 'fatal'. Must be one of: error, info, warning";
           "Missing required field: 'message'";
           "Invalid dateTime format: 'yesterday'. Expected ISO 8601."].
Proof. split; vm_compute; reflexivity. Qed.

(** C6: the timestamp "2024-01-15T10:30:00Z" followed by a newline is not of
    the form the rule describes, yet [$] lets the pattern match just before
    a final newline: the validator returns no error, and the record is
    written with the newline in its [DateTime]. *)
Lemma trailing_newline_dateTime_accepted :
  iso8601_like ("2024-01-15T10:30:00Z" ++ String Re.newline EmptyString) = false
  /\ Re.matches Ingest.ISO8601_RE
       ("2024-01-15T10:30:00Z" ++ String Re.newline EmptyString) = true
  /\ Ingest._validate newline_dateTime = Ok []
  /\ snd (Ingest.handler (H := sample_library [newline_dateTime]) sample_amb
            (request "POST" (dumps newline_dateTime)) ([] : list value))
     = [VDict [("LogID", VStr (uuid4 sample_amb));
               ("DateTime",
                VStr ("2024-01-15T10:30:00Z" ++ String Re.newline EmptyString));
               ("Severity", VStr "info");
               ("Message", VStr "disk full");
               ("LogType", VStr "LOG")]].
Proof. repeat split; vm_compute; reflexivity. Qed.

(** ** The timestamp pattern, run and read *)

Section PatternFacts.

Lemma go_count_digit n pos rest k :
  Re.go (Re.Count n Re.Digit) pos rest k
  = match digits n rest with
    | Some rest' => k (n + pos)%nat rest'
    | None => false
    end.
Proof.
  revert pos rest k. induction n as [| n IH]; intros pos rest k; [reflexivity |].
  destruct rest as [| c rest]; [reflexivity |].
  change (Re.go (Re.Count (S n) Re.Digit) pos (c :: rest) k)
    with (Re.is_digit c
          && Re.go (Re.Count n Re.Digit) (S pos) rest k).
  cbn [digits]. destruct (Re.is_digit c); [| reflexivity].
  cbn [andb]. rewrite IH. now rewrite Nat.add_succ_r.
Qed.

Lemma go_plus_digit k k' pos rest :
  (forall p l, k p l = k' l) ->
  Re.go (Re.Plus Re.Digit) pos rest k = some_digits k' rest.
Proof.
  intros Hk. cbn [Re.go].
  generalize (Nat.lt_succ_diag_r (length rest)).
  generalize (S (length rest)) as fuel. intros fuel. revert pos rest.
  induction fuel as [| fuel IH]; intros pos rest Hlt; [lia |].
  destruct rest as [| c rest]; [reflexivity |].
  cbn [some_digits]. destruct (Re.is_digit c); [| reflexivity].
  cbn [andb length].
  assert (Hlen : (length rest <? S (length rest))%nat = true)
    by (apply Nat.ltb_lt; lia).
  rewrite Hlen. cbn [andb]. rewrite Hk. f_equal.
  apply IH. cbn [length] in Hlt. lia.
Qed.

Lemma go_seq a b pos rest k :
  Re.go (Re.Seq a b) pos rest k
  = Re.go a pos rest (fun p r => Re.go b p r k).
Proof. reflexivity. Qed.

Lemma go_alt a b pos rest k :
  Re.go (Re.Alt a b) pos rest k = Re.go a pos rest k || Re.go b pos rest k.
Proof. reflexivity. Qed.

Lemma go_opt a pos rest k :
  Re.go (Re.Opt a) pos rest k = Re.go a pos rest k || k pos rest.
Proof. reflexivity. Qed.

Lemma go_lit x pos rest k :
  Re.go (Re.Lit x) pos rest k
  = match rest with
    | c :: rest' => Ascii.eqb c x && k (S pos) rest'
    | [] => false
    end.
Proof. reflexivity. Qed.

Lemma go_one_of cs pos rest k :
  Re.go (Re.OneOf cs) pos rest k
  = match rest with
    | c :: rest' =>
        existsb (Ascii.eqb c) (list_ascii_of_string cs) && k (S pos) rest'
    | [] => false
    end.
Proof. reflexivity. Qed.

Lemma go_eps pos rest k : Re.go Re.Eps pos rest k = k pos rest.
Proof. reflexivity. Qed.

Ltac re_step :=
  repeat (first [ rewrite go_seq | rewrite go_alt | rewrite go_opt
                | rewrite go_lit | rewrite go_one_of | rewrite go_count_digit
                | rewrite go_eps ]; cbv beta).

(** The optional zone, against a continuation [k] that ignores the offset. *)
Lemma go_zone k fin pos rest :
  (forall p r, k p r = fin r) ->
  Re.go
    (Re.Opt (Re.Alt (Re.Lit "Z")
               (Re.cat [ Re.OneOf "+-"; Re.Count 2 Re.Digit;
                         Re.Opt (Re.Lit ":"); Re.Count 2 Re.Digit ])))
    pos rest k
  = zone_until fin rest.
Proof.
  intros Hk. unfold zone_until. rewrite (orb_comm (fin rest)).
  change (Re.cat [ Re.OneOf "+-"; Re.Count 2 Re.Digit;
                   Re.Opt (Re.Lit ":"); Re.Count 2 Re.Digit ])
    with (Re.Seq (Re.OneOf "+-")
            (Re.Seq (Re.Count 2 Re.Digit)
               (Re.Seq (Re.Opt (Re.Lit ":"))
                  (Re.Seq (Re.Count 2 Re.Digit) Re.Eps)))).
  re_step. rewrite Hk. f_equal.
  destruct rest as [| c rest]; [reflexivity |].
  rewrite Hk. f_equal. cbn [list_ascii_of_string existsb].
  rewrite orb_false_r. f_equal. re_step. unfold offset.
  destruct (digits 2 rest) as [rest2 |]; [| reflexivity].
  re_step. destruct rest2 as [| c2 rest2]; [reflexivity |].
  f_equal.
  - f_equal. re_step. destruct (digits 2 rest2) as [e |]; [| reflexivity].
    re_step. apply Hk.
  - re_step. destruct (digits 2 (c2 :: rest2)) as [e |]; [| reflexivity].
    re_step. apply Hk.
Qed.

Lemma go_cat_cons a rs pos rest k :
  Re.go (Re.cat (a :: rs)) pos rest k
  = Re.go a pos rest (fun p r => Re.go (Re.cat rs) p r k).
Proof. reflexivity. Qed.

Lemma go_expect_lit x pos rest k :
  Re.go (Re.Lit x) pos rest k
  = match expect (is_char x) rest with
    | Some rest' => k (S pos) rest'
    | None => false
    end.
Proof.
  rewrite go_lit. destruct rest as [| c rest]; [reflexivity |].
  cbn [expect]. unfold is_char. now destruct (Ascii.eqb c x).
Qed.

Lemma go_expect_T_or_space pos rest k :
  Re.go (Re.OneOf "T ") pos rest k
  = match expect (fun c => is_char "T" c || is_char " " c) rest with
    | Some rest' => k (S pos) rest'
    | None => false
    end.
Proof.
  rewrite go_one_of. destruct rest as [| c rest]; [reflexivity |].
  cbn [expect list_ascii_of_string existsb]. unfold is_char.
  rewrite orb_false_r. now destruct (Ascii.eqb c "T" || Ascii.eqb c " ").
Qed.

(** Where the zone may start: not at a digit and not at a dot. *)
Lemma zone_until_eol_digit c rest :
  Re.is_digit c = true -> zone_until Re.at_eol (c :: rest) = false.
Proof.
  intros Hd. unfold zone_until, Re.at_eol.
  destruct (Ascii.eqb_spec c Re.newline) as [-> | _]; [discriminate Hd |].
  destruct (Ascii.eqb_spec c "Z") as [-> | _]; [discriminate Hd |].
  destruct (Ascii.eqb_spec c "+") as [-> | _]; [discriminate Hd |].
  destruct (Ascii.eqb_spec c "-") as [-> | _]; [discriminate Hd |].
  now destruct rest.
Qed.

Lemma zone_until_eol_dot rest : zone_until Re.at_eol ("."%char :: rest) = false.
Proof. unfold zone_until. cbn. now destruct rest. Qed.

Lemma some_digits_greedy k c rest :
  (forall c l, Re.is_digit c = true -> k (c :: l) = false) ->
  some_digits k (c :: rest) = Re.is_digit c && k (skip_digits rest).
Proof.
  intros Hk. revert c. induction rest as [| c2 rest IH]; intros c.
  - cbn. reflexivity.
  - cbn [some_digits] in *. rewrite IH. cbn [skip_digits].
    destruct (Re.is_digit c2) eqn:Hd; cbn [andb orb].
    + now rewrite (Hk c2 rest Hd), orb_false_r.
    + reflexivity.
Qed.

(** The end of the pattern: [(\.\d+)?(Z|[+-]\d{2}:?\d{2})?$]. *)
Lemma go_tail pos rest :
  Re.go
    (Re.cat
       [ Re.Opt (Re.Seq (Re.Lit ".") (Re.Plus Re.Digit));
         Re.Opt (Re.Alt (Re.Lit "Z")
                   (Re.cat [ Re.OneOf "+-"; Re.Count 2 Re.Digit;
                             Re.Opt (Re.Lit ":"); Re.Count 2 Re.Digit ]));
         Re.Eol ])
    pos rest any_end
  = match fraction rest with
    | Some rest' => zone_until Re.at_eol rest'
    | None => false
    end.
Proof.
  assert (Hz : forall p r,
             Re.go
               (Re.cat
                  [ Re.Opt (Re.Alt (Re.Lit "Z")
                              (Re.cat [ Re.OneOf "+-"; Re.Count 2 Re.Digit;
                                        Re.Opt (Re.Lit ":");
                                        Re.Count 2 Re.Digit ]));
                    Re.Eol ]) p r any_end
             = zone_until Re.at_eol r).
  { intros p r. rewrite go_cat_cons. apply go_zone.
    intros p' r'. cbn. unfold any_end. now rewrite andb_true_r. }
  rewrite go_cat_cons, go_opt, go_seq, go_lit, Hz.
  destruct rest as [| c rest]; [reflexivity |].
  cbn [fraction]. destruct (Ascii.eqb_spec c ".") as [-> | Hne]; [| reflexivity].
  rewrite zone_until_eol_dot, orb_false_r. cbn [andb].
  rewrite (go_plus_digit _ (zone_until Re.at_eol) _ _ Hz).
  destruct rest as [| c' rest]; [reflexivity |].
  rewrite (some_digits_greedy _ _ _ zone_until_eol_digit).
  now destruct (Re.is_digit c').
Qed.

(** What [ISO8601_RE.match] accepts, read off the pattern: the date, the
    separator, the time, the optional fraction and zone, and then the end
    of the text or a newline that ends it. *)
Lemma matches_ISO8601 s :
  Re.matches Ingest.ISO8601_RE s
  = match opt_bind (date_and_time (list_ascii_of_string s)) fraction with
    | Some rest => zone_until Re.at_eol rest
    | None => false
    end.
Proof.
  unfold Re.matches, Ingest.ISO8601_RE, date_and_time.
  generalize (list_ascii_of_string s) as l. intros l.
  change (fun (_ : nat) (_ : list ascii) => true) with any_end.
  rewrite go_cat_cons. cbn [Re.go Nat.eqb andb].
  repeat
    (first [ rewrite go_cat_cons, go_count_digit
           | rewrite go_cat_cons, go_expect_lit
           | rewrite go_cat_cons, go_expect_T_or_space ];
     match goal with
     | |- context [opt_bind ?o _] => destruct o as [? |]; [| reflexivity]
     end;
     cbn [opt_bind]).
  apply go_tail.
Qed.

Lemma digits_2_inv l r :
  digits 2 l = Some r ->
  exists a b, l = a :: b :: r /\ Re.is_digit a = true /\ Re.is_digit b = true.
Proof.
  destruct l as [| a [| b l]]; cbn; try discriminate.
  - destruct (Re.is_digit a); discriminate.
  - destruct (Re.is_digit a) eqn:Ha; [| discriminate].
    destruct (Re.is_digit b) eqn:Hb; [| discriminate].
    intros [= <-]. now exists a, b.
Qed.

Lemma zone_until_iff fin l :
  zone_until fin l = true
  <-> exists pre e, l = (pre ++ e)%list /\ zone_text pre /\ fin e = true.
Proof.
  split.
  - unfold zone_until. intros [Hfin | Hz]%orb_prop.
    { exists [], l. repeat split; [constructor | exact Hfin]. }
    destruct l as [| c l]; [discriminate Hz |].
    apply orb_prop in Hz as [[Hc Hfin]%andb_prop | [Hsg Hoff]%andb_prop].
    { apply Ascii.eqb_eq in Hc as ->.
      exists ["Z"%char], l. repeat split; [constructor | exact Hfin]. }
    unfold offset in Hoff.
    destruct (digits 2 l) as [l2 |] eqn:Hd; [| discriminate Hoff].
    apply digits_2_inv in Hd as (a & b & -> & Ha & Hb).
    destruct l2 as [| x l3]; [discriminate Hoff |].
    apply orb_prop in Hoff as [[Hx Hrest]%andb_prop | Hrest].
    + apply Ascii.eqb_eq in Hx as ->.
      destruct (digits 2 l3) as [e |] eqn:Hd; [| discriminate Hrest].
      apply digits_2_inv in Hd as (c' & d' & -> & Hc' & Hd').
      exists [c; a; b; ":"%char; c'; d'], e.
      repeat split; [now constructor | exact Hrest].
    + destruct (digits 2 (x :: l3)) as [e |] eqn:Hd; [| discriminate Hrest].
      apply digits_2_inv in Hd as (c' & d' & [= -> ->] & Hc' & Hd').
      exists [c; a; b; c'; d'], e.
      repeat split; [now constructor | exact Hrest].
  - intros (pre & e & -> & Hpre & Hfin). unfold zone_until.
    destruct Hpre as [| | sg a b c d Hsg Ha Hb Hc Hd | sg a b c d Hsg Ha Hb Hc Hd];
      cbn [app].
    + now rewrite Hfin.
    + rewrite Hfin. cbn. now rewrite ?orb_true_r.
    + rewrite Hsg. unfold offset. cbn [digits]. rewrite Ha, Hb. cbn [digits].
      rewrite Hc, Hd, Hfin. cbn. now rewrite ?orb_true_r.
    + rewrite Hsg. unfold offset. cbn [digits]. rewrite Ha, Hb, Hc, Hd, Hfin.
      cbn. now rewrite ?orb_true_r.
Qed.

Lemma zone_iff l : zone l = true <-> zone_text l.
Proof.
  unfold zone. rewrite zone_until_iff. split.
  - intros (pre & e & -> & Hpre & He). destruct e; [| discriminate He].
    now rewrite app_nil_r.
  - intros Hz. exists l, []. now rewrite app_nil_r.
Qed.

Lemma at_eol_iff e : Re.at_eol e = true <-> e = [] \/ e = [Re.newline].
Proof.
  destruct e as [| c [| c' e]]; cbn; split; intros Hx; try tauto;
    try discriminate; try (destruct Hx; discriminate).
  - right. now apply Ascii.eqb_eq in Hx as ->.
  - destruct Hx as [Hx | [= ->]]; [discriminate Hx | reflexivity].
Qed.

Lemma consumes_digits n : consumes (digits n).
Proof.
  induction n as [| n IH]; intros l r Hd.
  - injection Hd as ->. now exists [].
  - destruct l as [| c l]; [discriminate Hd |]. cbn [digits] in Hd.
    destruct (Re.is_digit c) eqn:Hc; [| discriminate Hd].
    destruct (IH l r Hd) as (h & -> & Hh).
    exists (c :: h). split; [reflexivity |].
    intros x. cbn [app digits]. now rewrite Hc.
Qed.

Lemma consumes_expect ok : consumes (expect ok).
Proof.
  intros [| c l] r He; [discriminate He |]. cbn [expect] in He.
  destruct (ok c) eqn:Hc; [| discriminate He]. injection He as ->.
  exists [c]. split; [reflexivity |]. intros x. cbn. now rewrite Hc.
Qed.

Lemma consumes_bind f g :
  consumes f -> consumes g -> consumes (fun l => opt_bind (f l) g).
Proof.
  intros Hf Hg l r Hb. destruct (f l) as [m |] eqn:Hfl; [| discriminate Hb].
  cbn [opt_bind] in Hb.
  destruct (Hf l m Hfl) as (h1 & -> & H1), (Hg m r Hb) as (h2 & -> & H2).
  exists (h1 ++ h2)%list. split; [apply List.app_assoc |].
  intros x. rewrite <- List.app_assoc, H1. apply H2.
Qed.

Lemma consumes_date_and_time : consumes date_and_time.
Proof.
  unfold date_and_time.
  repeat (apply consumes_bind;
          [first [apply consumes_digits | apply consumes_expect] |]).
  apply consumes_digits.
Qed.

Lemma skip_digits_split l :
  exists ds, l = (ds ++ skip_digits l)%list
             /\ forall x, boundary x -> skip_digits (ds ++ x)%list = x.
Proof.
  induction l as [| c l (ds & Hl & Hds)].
  - exists []. split; [reflexivity |].
    intros [| c x] Hx; [reflexivity |]. cbn. now destruct Hx as [-> _].
  - cbn [skip_digits]. destruct (Re.is_digit c) eqn:Hc.
    + exists (c :: ds). split; [cbn; now rewrite <- Hl |].
      intros x Hx. cbn [app skip_digits]. rewrite Hc. now apply Hds.
    + exists []. split; [reflexivity |].
      intros [| c' x] Hx; [reflexivity |]. cbn. now destruct Hx as [-> _].
Qed.

Lemma fraction_split l r :
  fraction l = Some r ->
  exists h, l = (h ++ r)%list
            /\ forall x, boundary x -> fraction (h ++ x)%list = Some x.
Proof.
  assert (Hnil : forall x, boundary x -> fraction x = Some x).
  { intros [| c x] Hx; [reflexivity |]. cbn. now destruct Hx as [_ ->]. }
  destruct l as [| c l]; cbn [fraction].
  - intros [= <-]. now exists [].
  - destruct (Ascii.eqb_spec c ".") as [-> | Hne].
    + destruct l as [| c' l]; [discriminate |].
      destruct (Re.is_digit c') eqn:Hc'; [| discriminate].
      intros [= <-]. destruct (skip_digits_split l) as (ds & Hl & Hds).
      exists ("."%char :: c' :: ds). split; [cbn; now rewrite <- Hl |].
      intros x Hx. cbn. rewrite Hc'. now rewrite (Hds x Hx).
    + intros [= <-]. now exists [].
Qed.

Lemma zone_text_boundary pre e :
  zone_text pre -> e = [] \/ e = [Re.newline] -> boundary (pre ++ e).
Proof.
  intros Hpre He.
  destruct Hpre as [| | sg a b c d Hsg _ _ _ _ | sg a b c d Hsg _ _ _ _];
    cbn [app boundary]; try (split; reflexivity).
  - destruct He as [-> | ->]; cbn; [exact I | split; reflexivity].
  - apply orb_prop in Hsg as [->%Ascii.eqb_eq | ->%Ascii.eqb_eq]; split; reflexivity.
  - apply orb_prop in Hsg as [->%Ascii.eqb_eq | ->%Ascii.eqb_eq]; split; reflexivity.
Qed.

Lemma list_ascii_of_string_app s t :
  list_ascii_of_string (s ++ t)
  = (list_ascii_of_string s ++ list_ascii_of_string t)%list.
Proof.
  induction s as [| c s IH]; [reflexivity |].
  change (c :: list_ascii_of_string (s ++ t)
          = c :: (list_ascii_of_string s ++ list_ascii_of_string t)%list).
  now rewrite IH.
Qed.

Lemma list_ascii_of_string_inj s t :
  list_ascii_of_string s = list_ascii_of_string t -> s = t.
Proof.
  intros E. rewrite <- (string_of_list_ascii_of_string s), E.
  apply string_of_list_ascii_of_string.
Qed.

Lemma iso8601_like_iff s :
  iso8601_like s = true
  <-> exists rest,
        opt_bind (date_and_time (list_ascii_of_string s)) fraction = Some rest
        /\ zone_text rest.
Proof.
  unfold iso8601_like.
  destruct (opt_bind (date_and_time (list_ascii_of_string s)) fraction) as [rest |].
  - rewrite zone_iff. split; [intros Hz; now exists rest |].
    now intros (rest' & [= <-] & Hz).
  - split; [discriminate | now intros (rest' & Hx & _)].
Qed.

(** X3: the pattern accepts a text exactly when the text is of the form the
    rule describes, or is such a text followed by one newline. *)
Theorem ISO8601_RE_accepts s :
  Re.matches Ingest.ISO8601_RE s = true
  <-> iso8601_like s = true
      \/ exists t, s = t ++ String Re.newline EmptyString
                   /\ iso8601_like t = true.
Proof.
  rewrite matches_ISO8601. split.
  - destruct (opt_bind (date_and_time (list_ascii_of_string s)) fraction)
      as [rest |] eqn:Hp; [| discriminate].
    intros (pre & e & -> & Hpre & He%at_eol_iff)%zone_until_iff.
    destruct He as [-> | ->].
    { left. apply iso8601_like_iff. exists pre. now rewrite app_nil_r in Hp. }
    right.
    destruct (date_and_time (list_ascii_of_string s)) as [m |] eqn:Hdt;
      [| discriminate Hp].
    cbn [opt_bind] in Hp.
    destruct (consumes_date_and_time _ _ Hdt) as (h1 & Hs & H1).
    destruct (fraction_split _ _ Hp) as (h2 & -> & H2).
    exists (string_of_list_ascii (h1 ++ h2 ++ pre)). split.
    + apply list_ascii_of_string_inj.
      rewrite list_ascii_of_string_app, list_ascii_of_string_of_list_ascii, Hs.
      cbn [list_ascii_of_string]. now rewrite <- !List.app_assoc.
    + apply iso8601_like_iff. exists pre. split; [| exact Hpre].
      rewrite list_ascii_of_string_of_list_ascii, H1. cbn [opt_bind].
      rewrite <- (app_nil_r pre) at 1. rewrite <- (app_nil_r pre) at 2.
      apply H2. apply zone_text_boundary; [exact Hpre | now left].
  - intros [Hs | (t & -> & Ht)].
    + apply iso8601_like_iff in Hs as (rest & -> & Hz).
      apply zone_until_iff. exists rest, []. now rewrite app_nil_r.
    + apply iso8601_like_iff in Ht as (rest & Hp & Hz).
      destruct (date_and_time (list_ascii_of_string t)) as [m |] eqn:Hdt;
        [| discriminate Hp].
      cbn [opt_bind] in Hp.
      destruct (consumes_date_and_time _ _ Hdt) as (h1 & Ht & H1).
      destruct (fraction_split _ _ Hp) as (h2 & -> & H2).
      rewrite list_ascii_of_string_app, Ht. cbn [list_ascii_of_string].
      rewrite <- !List.app_assoc, H1. cbn [opt_bind].
      rewrite (H2 (rest ++ [Re.newline])%list)
        by (apply zone_text_boundary; [exact Hz | now right]).
      apply zone_until_iff. now exists rest, [Re.newline].
Qed.

End PatternFacts.

(** ** The three rules together *)

Lemma in_severity_errors_missing sv :
  In missing_severity (severity_errors sv) <-> sv = VNone.
Proof.
  destruct sv as [| b | z | r | s | l | d]; unfold severity_errors;
    try (split; [intros [E | []]; discriminate E | discriminate]).
  - split; [reflexivity | now left].
  - destruct (existsb (String.eqb s) Ingest.VALID_SEVERITIES);
      (split; [intros Hx | discriminate]).
    + destruct Hx.
    + destruct Hx as [E | []]. discriminate E.
Qed.

Lemma in_severity_errors_invalid sv :
  hashable sv = true ->
  In (invalid_severity sv) (severity_errors sv)
  <-> sv <> VNone /\ in_str_set sv Ingest.VALID_SEVERITIES = Ok false.
Proof.
  intros Hh.
  destruct sv as [| b | z | r | s | l | d]; try discriminate Hh;
    cbn [severity_errors in_str_set];
    try (split; [intros _; now split | intros _; now left]).
  - split; [intros [E | []]; discriminate E | now intros [Hn _]].
  - destruct (existsb (String.eqb s) Ingest.VALID_SEVERITIES).
    + split; [intros [] | intros [_ E]; discriminate E].
    + split; [intros _; now split | intros _; now left].
Qed.

Lemma in_dateTime_errors dt :
  In (invalid_dateTime dt) (dateTime_errors dt)
  <-> dt <> VNone /\ Re.matches Ingest.ISO8601_RE (str dt) = false.
Proof.
  unfold dateTime_errors. destruct (is_none dt) eqn:Hn; cbn [orb].
  - destruct dt; try discriminate Hn.
    split; [intros [] | intros [Hx _]; now destruct Hx].
  - destruct (Re.matches Ingest.ISO8601_RE (str dt)).
    + split; [intros [] | intros [_ E]; discriminate E].
    + split; [intros _; split; [intros ->; discriminate Hn | reflexivity]
             | intros _; now left].
Qed.

(** Every error the validator returns is one of the four messages. *)
Lemma validate_errors_known d errors e :
  Ingest._validate (VDict d) = Ok errors -> In e errors ->
  e = missing_severity \/ e = invalid_severity (field d "severity")
  \/ e = missing_message \/ e = invalid_dateTime (field d "dateTime").
Proof.
  intros Hv Hin. destruct (validate_ok_dict _ _ Hv) as (d' & [= <-] & Hh).
  rewrite (validate_hashable d Hh) in Hv. injection Hv as <-.
  rewrite !in_app_iff in Hin. destruct Hin as [Hin | [Hin | Hin]].
  - destruct (field d "severity") as [| | | | s | |];
      unfold severity_errors in Hin;
      try (destruct Hin as [<- | []]; tauto).
    destruct (existsb (String.eqb s) Ingest.VALID_SEVERITIES);
      [destruct Hin | destruct Hin as [<- | []]; tauto].
  - unfold message_errors in Hin.
    destruct (truthy (field d "message")); [destruct Hin |].
    destruct Hin as [<- | []]. tauto.
  - unfold dateTime_errors in Hin.
    destruct (is_none (field d "dateTime")
              || Re.matches Ingest.ISO8601_RE (str (field d "dateTime")));
      [destruct Hin |].
    destruct Hin as [<- | []]. tauto.
Qed.

Ltac other_message :=
  let Hx := fresh "Hx" in
  let E := fresh "E" in
  intros Hx;
  repeat match goal with
         | H : In _ (if ?b then _ else _) |- _ => destruct b
         | H : In _ [] |- _ => destruct H
         | H : In _ [_] |- _ => destruct H as [E | []]; discriminate E
         end.

Lemma missing_severity_only_there m dt :
  ~ In missing_severity (message_errors m ++ dateTime_errors dt)%list.
Proof.
  intros [Hx | Hx]%in_app_or; revert Hx;
    unfold message_errors, dateTime_errors; other_message.
Qed.

Lemma invalid_severity_only_there sv m dt :
  ~ In (invalid_severity sv) (message_errors m ++ dateTime_errors dt)%list.
Proof.
  intros [Hx | Hx]%in_app_or; revert Hx;
    unfold message_errors, dateTime_errors; other_message.
Qed.

Lemma invalid_dateTime_only_there dt sv m :
  ~ In (invalid_dateTime dt) (severity_errors sv ++ message_errors m)%list.
Proof.
  intros [Hx | Hx]%in_app_or; revert Hx; unfold message_errors.
  - destruct sv; unfold severity_errors; other_message.
  - other_message.
Qed.

(** X1: on a record whose [severity] is absent, null or anything but a
    list or dict, the validator returns a list in which each of the four
    messages stands exactly when its rule is violated, whatever the other
    rules say; the missing and the invalid message for [severity] never
    stand together; and the list is empty exactly when no rule is
    violated. *)
Theorem validator_checks_every_rule (d : list (string * value)) :
  hashable (field d "severity") = true ->
  exists errors,
    Ingest._validate (VDict d) = Ok errors
    /\ (In "Missing required field: 'severity'" errors
        <-> field d "severity" = VNone)
    /\ (In (invalid_severity (field d "severity")) errors
        <-> field d "severity" <> VNone
            /\ in_str_set (field d "severity") Ingest.VALID_SEVERITIES = Ok false)
    /\ (In "Missing required field: 'message'" errors
        <-> truthy (field d "message") = false)
    /\ (In (invalid_dateTime (field d "dateTime")) errors
        <-> field d "dateTime" <> VNone
            /\ Re.matches Ingest.ISO8601_RE (str (field d "dateTime")) = false)
    /\ ~ (In "Missing required field: 'severity'" errors
          /\ In (invalid_severity (field d "severity")) errors)
    /\ (forall e, In e errors ->
          e = "Missing required field: 'severity'"
          \/ e = invalid_severity (field d "severity")
          \/ e = "Missing required field: 'message'"
          \/ e = invalid_dateTime (field d "dateTime")).
Proof.
  intros Hh. eexists. split; [exact (validate_hashable d Hh) |].
  change "Missing required field: 'severity'" with missing_severity.
  change "Missing required field: 'message'" with missing_message.
  pose proof (in_severity_errors_missing (field d "severity")) as Hs1.
  pose proof (in_severity_errors_invalid (field d "severity") Hh) as Hs2.
  pose proof (in_message_errors (field d "message")) as Hm.
  pose proof (in_dateTime_errors (field d "dateTime")) as Hdt.
  pose proof (missing_severity_only_there (field d "message") (field d "dateTime"))
    as Hsev.
  pose proof (invalid_severity_only_there (field d "severity")
                (field d "message") (field d "dateTime")) as Hother.
  pose proof (missing_message_not_severity_error (field d "severity")).
  pose proof (missing_message_not_dateTime_error (field d "dateTime")).
  pose proof (invalid_dateTime_only_there (field d "dateTime")
                (field d "severity") (field d "message")) as Hdt'.
  rewrite in_app_iff in Hdt', Hother, Hsev.
  split; [| split; [| split; [| split; [| split]]]].
  - rewrite !in_app_iff. tauto.
  - rewrite !in_app_iff. tauto.
  - rewrite !in_app_iff. tauto.
  - rewrite !in_app_iff. tauto.
  - rewrite !in_app_iff. intros [[Hx | Hx] [Hy | Hy]]; tauto.
  - intros e He.
    exact (validate_errors_known d _ e (validate_hashable d Hh) He).
Qed.

Lemma validator_checks_every_rule_witness :
  exists errors,
    Ingest._validate three_violations_hashable = Ok errors
    /\ In (invalid_severity (VStr "fatal")) errors
    /\ In "Missing required field: 'message'" errors
    /\ In (invalid_dateTime (VStr "yesterday")) errors.
Proof.
  destruct (validator_checks_every_rule
              [("severity", VStr "fatal"); ("dateTime", VStr "yesterday")] eq_refl)
    as (errors & Hv & _ & Hs & Hm & Hdt & _).
  exists errors. split; [exact Hv |]. split; [| split].
  - apply Hs. split; [discriminate | reflexivity].
  - apply Hm. reflexivity.
  - apply Hdt. split; [discriminate | reflexivity].
Defined.

(** The two timestamps the spec gives as examples are accepted, and so is
    a record that carries one. *)
Lemma example_timestamps_accepted :
  Re.matches Ingest.ISO8601_RE "2024-01-15T10:30:00Z" = true
  /\ Re.matches Ingest.ISO8601_RE "2024-01-15 10:30:00.123+02:00" = true
  /\ Ingest._validate
       (VDict [("severity", VStr "info"); ("message", VStr "disk full");
               ("dateTime", VStr "2024-01-15 10:30:00.123+02:00")])
     = Ok [].
Proof. repeat split; vm_compute; reflexivity. Qed.

(** ** What a record needs to be accepted *)

Lemma in_valid_severities s :
  existsb (String.eqb s) Ingest.VALID_SEVERITIES = true
  <-> In s Ingest.VALID_SEVERITIES.
Proof.
  rewrite existsb_exists. split.
  - intros (x & Hin & ->%String.eqb_eq). exact Hin.
  - intros Hin. exists s. split; [exact Hin | apply String.eqb_refl].
Qed.

(** X2: the validator returns no error exactly when [severity] is one of
    the three strings, [message] counts as true, and [dateTime] is absent,
    null, or has a text the pattern matches. *)
Theorem accepted_iff (d : list (string * value)) :
  Ingest._validate (VDict d) = Ok []
  <-> (exists s, assoc "severity" d = Some (VStr s)
                 /\ In s ["info"; "warning"; "error"])
      /\ truthy (field d "message") = true
      /\ (field d "dateTime" = VNone
          \/ Re.matches Ingest.ISO8601_RE (str (field d "dateTime")) = true).
Proof.
  split.
  - intros Hv. destruct (validate_accepts d Hv) as ((s & Hs & Hin) & (m & Hm & Ht) & Hdt).
    split; [| split].
    + exists s. split; [exact Hs | now apply in_valid_severities].
    + now rewrite (field_present _ _ _ Hm).
    + exact Hdt.
  - intros ((s & Hs & Hin) & Hm & Hdt).
    pose proof (field_present _ _ _ Hs) as Hf.
    rewrite validate_hashable by now rewrite Hf.
    rewrite Hf. unfold severity_errors, message_errors, dateTime_errors.
    apply in_valid_severities in Hin. rewrite Hin, Hm.
    destruct Hdt as [-> | ->]; [reflexivity |].
    now rewrite orb_true_r.
Qed.

(** ** What of the event the ingest handler reads *)

Section IngestReads.
Context {L : Library} {T : Type} {Tb : Table T}.

(** The run is decided by the method and the body text. *)
Lemma handle_same_request validate amb e1 e2 (table : T) :
  http_method e1 = http_method e2 ->
  raw_body_of e1 = raw_body_of e2 ->
  Ingest._handle_with validate amb e1 table
  = Ingest._handle_with validate amb e2 table.
Proof.
  intros Hm Hraw.
  destruct (http_method e1) as [m | e] eqn:H1; symmetry in Hm.
  2:{ now rewrite (handle_no_method _ _ _ _ _ H1), (handle_no_method _ _ _ _ _ Hm). }
  destruct (ne_str m "POST") eqn:Hne.
  { apply ne_str_true in Hne.
    now rewrite (handle_wrong_method _ _ _ _ _ H1 Hne),
      (handle_wrong_method _ _ _ _ _ Hm Hne). }
  apply ne_str_false in Hne. subst m.
  destruct (raw_body_of e1) as [raw | e] eqn:H2; symmetry in Hraw.
  - now rewrite (handle_post _ _ _ _ _ H1 H2), (handle_post _ _ _ _ _ Hm Hraw).
  - now rewrite (handle_no_body _ _ _ _ _ H1 H2), (handle_no_body _ _ _ _ _ Hm Hraw).
Qed.

(** X4: the ingest handler reads three keys of the event and nothing else:
    two events that agree on [requestContext], [body] and
    [isBase64Encoded] get the same answer and leave the same table,
    whatever else they carry (headers, path, query string). *)
Theorem ingest_reads_three_keys (amb : ambient)
    (ev1 ev2 : list (string * value)) (table : T) :
  assoc "requestContext" ev1 = assoc "requestContext" ev2 ->
  assoc "body" ev1 = assoc "body" ev2 ->
  assoc "isBase64Encoded" ev1 = assoc "isBase64Encoded" ev2 ->
  Ingest.handler amb (VDict ev1) table = Ingest.handler amb (VDict ev2) table.
Proof.
  intros Hrc Hb Hf. unfold Ingest.handler, Ingest._handle.
  rewrite (handle_same_request _ amb (VDict ev1) (VDict ev2) table);
    [reflexivity | |].
  - unfold http_method, get. now rewrite Hrc.
  - unfold raw_body_of, get. now rewrite Hb, Hf.
Qed.

End IngestReads.

Lemma ingest_reads_three_keys_witness :
  Ingest.handler (H := sample_library [disk_full]) sample_amb
    (VDict [("rawPath", VStr "/logs");
            ("requestContext", VDict [("http", VDict [("method", VStr "POST")])]);
            ("headers", VDict [("x-trace", VStr "abc")]);
            ("body", VStr (dumps disk_full));
            ("isBase64Encoded", VBool false)])
    ([] : list value)
  = Ingest.handler (H := sample_library [disk_full]) sample_amb
      (request "POST" (dumps disk_full)) ([] : list value).
Proof.
  exact (ingest_reads_three_keys (L := sample_library [disk_full]) sample_amb
           _ _ [] eq_refl eq_refl eq_refl).
Defined.

(** ** The body: base64, JSON that is no object, validation errors *)

Section IngestBody.
Context {L : Library} {T : Type} {Tb : Table T}.

(** X5: a POST flagged as base64 whose body decodes to [text] is handled as
    the same POST with [text] as its plain body; when the body does not
    decode, the answer is status 500 and the table is left as it was. *)
Theorem base64_body_decoded (amb : ambient)
    (ev : list (string * value)) (b64 : string) (flag : value) (table : T) :
  http_method (VDict ev) = Ok (VStr "POST") ->
  assoc "body" ev = Some (VStr b64) ->
  assoc "isBase64Encoded" ev = Some flag ->
  truthy flag = true ->
  (forall text,
      b64decode_utf8 b64 = Ok text ->
      Ingest.handler amb (VDict ev) table
      = Ingest.handler amb (post_event (VStr text) (VBool false)) table)
  /\ (forall e,
        b64decode_utf8 b64 = Raise e ->
        Ingest.handler amb (VDict ev) table = (internal_error, table)).
Proof.
  intros Hm Hb Hf Ht.
  assert (Hraw : raw_body_of (VDict ev) = b64decode (VStr b64)).
  { unfold raw_body_of, get. rewrite Hb, Hf. cbn [bind]. now rewrite Ht. }
  split.
  - intros text Hd. unfold Ingest.handler, Ingest._handle.
    rewrite (handle_same_request _ amb (VDict ev)
               (post_event (VStr text) (VBool false)) table);
      [reflexivity | now rewrite Hm |].
    rewrite Hraw. cbn [b64decode]. now rewrite Hd.
  - intros e Hd. unfold Ingest.handler, Ingest._handle.
    rewrite (handle_no_body _ amb (VDict ev) e table Hm); [reflexivity |].
    rewrite Hraw. cbn [b64decode]. now rewrite Hd.
Qed.

(** X6: a POST whose body is JSON but no object (a list, a string, a
    number, true, false or null) is answered with status 500, not 400, and
    nothing is written. *)
Theorem non_object_body_is_500 (amb : ambient) (event raw body : value) (table : T) :
  http_method event = Ok (VStr "POST") ->
  raw_body_of event = Ok raw ->
  parsed raw = Ok body ->
  (forall d, body <> VDict d) ->
  Ingest.handler amb event table = (internal_error, table).
Proof.
  intros Hm Hraw Hp Hd. unfold Ingest.handler, Ingest._handle.
  now rewrite (handle_post _ _ _ _ _ Hm Hraw), Hp, (validate_not_dict body Hd).
Qed.


End IngestBody.

Lemma base64_body_decoded_witness :
  Ingest.handler (H := library_of [(dumps disk_full, disk_full)]
                         [("eyJzZXZlcml0eSI6", dumps disk_full)])
    sample_amb (post_event (VStr "eyJzZXZlcml0eSI6") (VBool true))
    ([] : list value)
  = Ingest.handler (H := library_of [(dumps disk_full, disk_full)]
                           [("eyJzZXZlcml0eSI6", dumps disk_full)])
      sample_amb (post_event (VStr (dumps disk_full)) (VBool false))
      ([] : list value).
Proof.
  exact (proj1 (base64_body_decoded
                  (L := library_of [(dumps disk_full, disk_full)]
                          [("eyJzZXZlcml0eSI6", dumps disk_full)])
                  sample_amb
                  [("requestContext",
                    VDict [("http", VDict [("method", VStr "POST")])]);
                   ("body", VStr "eyJzZXZlcml0eSI6");
                   ("isBase64Encoded", VBool true)]
                  "eyJzZXZlcml0eSI6" (VBool true) []
                  eq_refl eq_refl eq_refl eq_refl)
           (dumps disk_full) eq_refl).
Defined.

Lemma non_object_body_is_500_witness :
  Ingest.handler (H := sample_library [VList [VInt 1; VInt 2]]) sample_amb
    (request "POST" "[1, 2]") ([] : list value)
  = (internal_error, []).
Proof.
  refine (non_object_body_is_500 (L := sample_library [VList [VInt 1; VInt 2]])
            sample_amb (request "POST" "[1, 2]") (VStr "[1, 2]")
            (VList [VInt 1; VInt 2]) [] eq_refl eq_refl eq_refl _).
  discriminate.
Defined.


(** ** Which fields of the record count *)

Lemma final_dateTime_field amb d :
  final_dateTime amb d
  = match field d "dateTime" with
    | VNone => VStr (utcnow_isoformat amb)
    | dt => dt
    end.
Proof.
  unfold final_dateTime, field.
  destruct (assoc "dateTime" d) as [dt |]; [now destruct dt | reflexivity].
Qed.

Lemma validate_same_fields d1 d2 :
  field d1 "severity" = field d2 "severity" ->
  field d1 "message" = field d2 "message" ->
  field d1 "dateTime" = field d2 "dateTime" ->
  Ingest._validate (VDict d1) = Ingest._validate (VDict d2).
Proof.
  intros Hs Hm Hdt. destruct (hashable (field d1 "severity")) eqn:Hh.
  - rewrite (validate_hashable d1 Hh), (validate_hashable d2) by now rewrite <- Hs.
    now rewrite Hs, Hm, Hdt.
  - rewrite (validate_unhashable d1 Hh), (validate_unhashable d2) by now rewrite <- Hs.
    reflexivity.
Qed.

Section IngestFields.
Context {L : Library} {T : Type} {Tb : Table T}.

(** X8: of the record, the handler reads [severity], [message], [dateTime]
    and [id] through [get], and nothing else: two POSTs whose records give
    the same four values get the same answer and leave the same table.
    Unknown fields are ignored, and a field that is null counts as one
    that is absent. *)
Theorem four_fields_decide (amb : ambient) (e1 e2 raw1 raw2 : value)
    (d1 d2 : list (string * value)) (table : T) :
  http_method e1 = Ok (VStr "POST") -> raw_body_of e1 = Ok raw1 ->
  parsed raw1 = Ok (VDict d1) ->
  http_method e2 = Ok (VStr "POST") -> raw_body_of e2 = Ok raw2 ->
  parsed raw2 = Ok (VDict d2) ->
  (forall k, In k ["severity"; "message"; "dateTime"; "id"] ->
             field d1 k = field d2 k) ->
  Ingest.handler amb e1 table = Ingest.handler amb e2 table.
Proof.
  intros Hm1 Hr1 Hp1 Hm2 Hr2 Hp2 Hf.
  assert (Hs : field d1 "severity" = field d2 "severity") by (apply Hf; cbn; tauto).
  assert (Hmsg : field d1 "message" = field d2 "message") by (apply Hf; cbn; tauto).
  assert (Hdt : field d1 "dateTime" = field d2 "dateTime") by (apply Hf; cbn; tauto).
  assert (Hid : field d1 "id" = field d2 "id") by (apply Hf; cbn; tauto).
  pose proof (validate_same_fields d1 d2 Hs Hmsg Hdt) as Hv.
  unfold Ingest.handler, Ingest._handle.
  rewrite (handle_post _ _ _ _ _ Hm1 Hr1), (handle_post _ _ _ _ _ Hm2 Hr2), Hp1, Hp2.
  rewrite Hv. destruct (Ingest._validate (VDict d2)) as [[| e errors] | e] eqn:Hv2;
    try reflexivity.
  rewrite (write_accepted amb d1 table Hv), (write_accepted amb d2 table Hv2).
  unfold store, entry, created, final_id.
  now rewrite !final_dateTime_field, Hs, Hmsg, Hdt, Hid.
Qed.

(** X9: when the record of a POST brings an [id] that counts as true and a
    [dateTime] that is not null, neither the generated token nor the clock
    has any part in the answer or in what is written: a repeated request
    writes the same item again. *)
Theorem client_id_and_dateTime_fix_the_entry (amb amb' : ambient)
    (event raw : value) (d : list (string * value)) (table : T) :
  http_method event = Ok (VStr "POST") ->
  raw_body_of event = Ok raw ->
  parsed raw = Ok (VDict d) ->
  truthy (field d "id") = true ->
  field d "dateTime" <> VNone ->
  Ingest.handler amb event table = Ingest.handler amb' event table
  /\ entry amb d = entry amb' d.
Proof.
  intros Hm Hraw Hp Hid Hdt.
  assert (He : entry amb d = entry amb' d).
  { unfold entry, final_id. rewrite !final_dateTime_field, Hid.
    now destruct (field d "dateTime"). }
  split; [| exact He].
  unfold Ingest.handler, Ingest._handle.
  rewrite !(handle_post _ _ _ _ _ Hm Hraw), Hp.
  destruct (Ingest._validate (VDict d)) as [[| e errors] | e] eqn:Hv;
    try reflexivity.
  rewrite !(write_accepted _ d table Hv). unfold store. rewrite He.
  unfold created, final_id. rewrite !final_dateTime_field, Hid.
  now destruct (field d "dateTime").
Qed.

End IngestFields.

Lemma four_fields_decide_witness :
  Ingest.handler (H := sample_library [with_null_and_more; disk_full]) sample_amb
    (request "POST" (dumps with_null_and_more)) ([] : list value)
  = Ingest.handler (H := sample_library [with_null_and_more; disk_full]) sample_amb
      (request "POST" (dumps disk_full)) ([] : list value).
Proof.
  refine (four_fields_decide (L := sample_library [with_null_and_more; disk_full])
            sample_amb (request "POST" (dumps with_null_and_more))
            (request "POST" (dumps disk_full))
            (VStr (dumps with_null_and_more)) (VStr (dumps disk_full))
            [("severity", VStr "error"); ("message", VStr "disk full");
             ("dateTime", VNone); ("host", VStr "db-1")]
            [("severity", VStr "error"); ("message", VStr "disk full")]
            [] eq_refl eq_refl eq_refl eq_refl eq_refl eq_refl _).
  intros k [<- | [<- | [<- | [<- | []]]]]; reflexivity.
Defined.

Lemma client_id_and_dateTime_fix_the_entry_witness :
  Ingest.handler (H := sample_library [with_id_and_dateTime]) sample_amb
    (request "POST" (dumps with_id_and_dateTime)) ([] : list value)
  = Ingest.handler (H := sample_library [with_id_and_dateTime])
      {| uuid4 := "another"; utcnow_isoformat := "later" |}
      (request "POST" (dumps with_id_and_dateTime)) ([] : list value).
Proof.
  refine (proj1 (client_id_and_dateTime_fix_the_entry
                   (L := sample_library [with_id_and_dateTime])
                   sample_amb {| uuid4 := "another"; utcnow_isoformat := "later" |}
                   (request "POST" (dumps with_id_and_dateTime))
                   (VStr (dumps with_id_and_dateTime))
                   [("severity", VStr "error"); ("message", VStr "disk full");
                    ("id", VStr "x1"); ("dateTime", VStr "2024-01-01T00:00:00Z")]
                   [] eq_refl eq_refl eq_refl eq_refl _)).
  discriminate.
Defined.

(** ** The calls on the table *)

Lemma well_formed_entry amb d :
  Ingest._validate (VDict d) = Ok [] -> well_formed (entry amb d).
Proof.
  intros Hv. destruct (validate_accepts d Hv) as ((s & Hs & Hin) & (m & Hm & Ht) & _).
  exists (final_id amb d), (final_dateTime amb d), s, m. unfold entry.
  rewrite (field_present _ _ _ Hs), (field_present _ _ _ Hm).
  split; [reflexivity |]. split; [now apply in_valid_severities | exact Ht].
Qed.

(** X10: in one run the ingest handler makes at most one call on the
    table; the call is a [put_item], never a query; what it puts is a
    well-formed entry; and it is made exactly when the answer is 200 or the
    write itself raised. *)
Theorem ingest_calls {L : Library} {T : Type} {Tb : Table T}
    (amb : ambient) (event : value) (table table' : T)
    (log log' : list call) (r : response) :
  Ingest.handler amb event (table, log) = (r, (table', log')) ->
  (log' = log /\ table' = table /\ statusCode r <> 200)
  \/ (exists item,
        log' = (log ++ [PutItem item])%list
        /\ well_formed item
        /\ (statusCode r = 200 \/ r = internal_error)).
Proof.
  intros Hrun. pose proof (handler_outcome amb event (table, log)) as Hout.
  rewrite Hrun in Hout.
  inversion Hout as [r0 Hcode | d t' Hv Hput | d e t' Hv Hput]; subst.
  - left. repeat split. intros E. rewrite E in Hcode. cbn in Hcode.
    intuition discriminate.
  - right. exists (entry amb d). cbn in Hput.
    destruct (put_item (entry amb d) table) as [res t''].
    injection Hput as _ -> <-.
    repeat split; [now apply well_formed_entry | now left].
  - right. exists (entry amb d). cbn in Hput.
    destruct (put_item (entry amb d) table) as [res t''].
    injection Hput as _ -> <-.
    repeat split; [now apply well_formed_entry | now right].
Qed.

Lemma ingest_calls_witness :
  exists item,
    snd (snd (Ingest.handler (H := sample_library [disk_full]) sample_amb
                (request "POST" (dumps disk_full))
                ([] : list value, [] : list call)))
    = [PutItem item]
    /\ well_formed item.
Proof.
  destruct (Ingest.handler (H := sample_library [disk_full]) sample_amb
              (request "POST" (dumps disk_full))
              ([] : list value, [] : list call))
    as [r [table' log']] eqn:Hrun.
  destruct (ingest_calls (L := sample_library [disk_full]) sample_amb
              (request "POST" (dumps disk_full)) [] table' [] log' r Hrun)
    as [(_ & _ & Hcode) | (item & Hlog & Hwf & _)].
  - exfalso. apply Hcode. vm_compute in Hrun. now injection Hrun as <- _ _.
  - exists item. split; [exact Hlog | exact Hwf].
Defined.

(** X11: in one run the read handler makes no call on the table, and then
    answers 405 or 500 and leaves it as it was, or makes exactly one call,
    the query of index "DateTimeIndex" for [LogType = "LOG"], backwards,
    with limit 100, and then answers 200 or 500.  It never calls
    [put_item]. *)
Theorem read_calls {T : Type} {Tb : Table T}
    (event : value) (table table' : T) (log log' : list call) (r : response) :
  ReadRecent.handler event (table, log) = (r, (table', log')) ->
  (log' = log /\ table' = table /\ (statusCode r = 405 \/ statusCode r = 500))
  \/ (log' = (log ++ [Query {| IndexName := "DateTimeIndex";
                               KeyName := "LogType"; KeyValue := "LOG";
                               ScanIndexForward := false; Limit := 100 |}])%list
      /\ table' = snd (query recent_query table)
      /\ (statusCode r = 200 \/ statusCode r = 500)).
Proof.
  unfold ReadRecent.handler. intros Hrun.
  destruct (http_method event) as [m | e] eqn:Hm.
  2:{ rewrite (read_handle_no_method _ _ _ Hm) in Hrun.
      injection Hrun as <- <- <-. left. repeat split. now right. }
  destruct (ne_str m "GET") eqn:Hne.
  { apply ne_str_true in Hne. rewrite (read_wrong_method _ _ _ Hm Hne) in Hrun.
    injection Hrun as <- <- <-. left. repeat split. now left. }
  apply ne_str_false in Hne. subst m.
  rewrite (read_handle_get _ _ Hm) in Hrun. right.
  cbn [query traced fst snd] in Hrun.
  destruct (query recent_query table) as [res t''] eqn:Hq.
  cbn [fst snd] in Hrun.
  destruct res as [resp | e]; cbn [bind] in Hrun;
    [| injection Hrun as <- <- <-; repeat split; now right].
  destruct (Boto.get resp "Items" (RList [])) as [items | e]; cbn [bind] in Hrun;
    [| injection Hrun as <- <- <-; repeat split; now right].
  destruct (Boto.iter items) as [l | e]; cbn [bind] in Hrun;
    [| injection Hrun as <- <- <-; repeat split; now right].
  destruct (ReadRecent.comprehension ReadRecent.project l) as [logs | e];
    cbn [bind] in Hrun;
    [| injection Hrun as <- <- <-; repeat split; now right].
  destruct (Boto.to_json _) as [payload | e];
    cbn [bind] in Hrun; injection Hrun as <- <- <-; repeat split;
    [now left | now right].
Qed.

Lemma read_calls_witness :
  snd (snd (ReadRecent.handler (request "GET" "")
              ([older; newer], [] : list call)))
  = [Query recent_query].
Proof.
  destruct (ReadRecent.handler (request "GET" "") ([older; newer], [] : list call))
    as [r [table' log']] eqn:Hrun.
  destruct (read_calls (request "GET" "") [older; newer] table' [] log' r Hrun)
    as [(_ & _ & Hcode) | (Hlog & _)].
  - exfalso. vm_compute in Hrun. injection Hrun as <- _ _.
    destruct Hcode as [Hcode | Hcode]; discriminate Hcode.
  - exact Hlog.
Defined.

(** ** Items the read handler cannot project *)

(** X12: when the query of a GET returns a list of items, the answer is
    status 200 exactly when every item is a dict that holds [LogID],
    [DateTime], [Severity] and [Message], each with a value [json.dumps] can
    write: no [Decimal], which is what a stored number comes back as, no
    [Binary] and no set, at any depth.  One item short of an attribute, or
    with a number in one of the four, makes the whole answer status 500,
    with no entry returned. *)
Theorem read_needs_readable_items {T : Type} {Tb : Table T}
    (event : value) (table table' : T) (resp : reply) (items : list reply) :
  http_method event = Ok (VStr "GET") ->
  query recent_query table = (Ok resp, table') ->
  Boto.get resp "Items" (RList []) = Ok (RList items) ->
  (statusCode (fst (ReadRecent.handler event table)) = 200
   <-> forallb readable items = true)
  /\ (forallb readable items = false ->
      ReadRecent.handler event table = (internal_error, table')).
Proof.
  intros Hm Hq Hi.
  split; [| exact (read_unreadable event table table' resp items Hm Hq Hi)].
  destruct (forallb readable items) eqn:Hc.
  - rewrite (read_ok event table table' resp items Hm Hq Hi Hc). now split.
  - rewrite (read_unreadable event table table' resp items Hm Hq Hi Hc).
    split; discriminate.
Qed.

Lemma read_needs_readable_items_witness :
  ReadRecent.handler (request "GET" "") [older; no_message]
  = (internal_error, [older; no_message])
  /\ ReadRecent.handler (request "GET" "")
       [older; entry sample_amb [("severity", VStr "info"); ("message", VInt 5)]]
     = (internal_error,
        [older; entry sample_amb [("severity", VStr "info"); ("message", VInt 5)]]).
Proof.
  split.
  - assert (Hq : query recent_query [older; no_message]
                 = (Ok (RDict [("Items", RList (handed_back [no_message; older]));
                               ("Count", RInt 2)]),
                    [older; no_message]))
      by (vm_compute; reflexivity).
    exact (proj2 (read_needs_readable_items (request "GET" "")
                    [older; no_message] [older; no_message] _
                    (handed_back [no_message; older])
                    eq_refl Hq eq_refl)
             eq_refl).
  - assert (Hq : query recent_query
                   [older;
                    entry sample_amb [("severity", VStr "info"); ("message", VInt 5)]]
                 = (Ok (RDict
                          [("Items",
                            RList (handed_back
                                     [entry sample_amb
                                        [("severity", VStr "info");
                                         ("message", VInt 5)];
                                      older]));
                           ("Count", RInt 2)]),
                    [older;
                     entry sample_amb
                       [("severity", VStr "info"); ("message", VInt 5)]]))
      by (vm_compute; reflexivity).
    exact (proj2 (read_needs_readable_items (request "GET" "") _ _ _
                    (handed_back
                       [entry sample_amb
                          [("severity", VStr "info"); ("message", VInt 5)];
                        older])
                    eq_refl Hq eq_refl)
             eq_refl).
Defined.

(** ** Writing, then reading *)







(** ** Events without a method *)




(** ** What is logged *)

Section Logging.
Context {L : Library} {T : Type} {Tb : Table T}.

Lemma ingest_returns_no_500 amb event (table table' : T) r :
  Ingest._handle amb event table = (Ok r, table') -> statusCode r <> 500.
Proof.
  unfold Ingest._handle. intros Hrun.
  destruct (http_method event) as [m | e] eqn:Hm.
  2:{ rewrite (handle_no_method _ _ _ _ _ Hm) in Hrun. discriminate Hrun. }
  destruct (ne_str m "POST") eqn:Hne.
  { apply ne_str_true in Hne. rewrite (handle_wrong_method _ _ _ _ _ Hm Hne) in Hrun.
    injection Hrun as <- _. discriminate. }
  apply ne_str_false in Hne. subst m.
  destruct (raw_body_of event) as [raw | e] eqn:Hraw.
  2:{ rewrite (handle_no_body _ _ _ _ _ Hm Hraw) in Hrun. discriminate Hrun. }
  rewrite (handle_post _ _ _ _ _ Hm Hraw) in Hrun.
  destruct (parsed raw) as [body | e].
  2:{ destruct e; try discriminate Hrun. injection Hrun as <- _. discriminate. }
  destruct (Ingest._validate body) as [[| e errors] | e] eqn:Hv;
    [| injection Hrun as <- _; discriminate | discriminate Hrun].
  destruct (validate_ok_dict _ _ Hv) as (d & -> & _).
  rewrite (write_accepted amb d table Hv) in Hrun. unfold store in Hrun.
  destruct (put_item (entry amb d) table) as [[[] | e] t''];
    [injection Hrun as <- _; discriminate | discriminate Hrun].
Qed.

Lemma read_returns_no_500 event (table table' : T) r :
  ReadRecent._handle event table = (Ok r, table') -> statusCode r <> 500.
Proof.
  intros Hrun. destruct (http_method event) as [m | e] eqn:Hm.
  2:{ rewrite (read_handle_no_method _ _ _ Hm) in Hrun. discriminate Hrun. }
  destruct (ne_str m "GET") eqn:Hne.
  { apply ne_str_true in Hne. rewrite (read_wrong_method _ _ _ Hm Hne) in Hrun.
    injection Hrun as <- _. discriminate. }
  apply ne_str_false in Hne. subst m.
  rewrite (read_handle_get _ _ Hm) in Hrun.
  destruct (query recent_query table) as [[resp | e] t'']; cbn [fst snd bind] in Hrun;
    [| discriminate Hrun].
  destruct (Boto.get resp "Items" (RList [])) as [items | e]; cbn [bind] in Hrun;
    [| discriminate Hrun].
  destruct (Boto.iter items) as [l | e]; cbn [bind] in Hrun; [| discriminate Hrun].
  destruct (ReadRecent.comprehension ReadRecent.project l) as [logs | e];
    cbn [bind] in Hrun; [| discriminate Hrun].
  destruct (Boto.to_json _) as [payload | e]; cbn [bind] in Hrun;
    [| discriminate Hrun].
  injection Hrun as <- _. discriminate.
Qed.

(** X15: both handlers log the event exactly when they answer with status
    500, and then the line is "Error processing event: " followed by the
    event as JSON; a request answered 200, 400 or 405 leaves no line.
    Answer and table are those of [handler]. *)
Theorem event_logged_only_on_500 (amb : ambient) (event : value) (table : T) :
  (fst (Ingest.handler_logging amb event table) = Ingest.handler amb event table
   /\ (snd (Ingest.handler_logging amb event table)
       = if statusCode (fst (Ingest.handler amb event table)) =? 500
         then Some ("Error processing event: " ++ dumps event)
         else None))
  /\ (fst (ReadRecent.handler_logging event table) = ReadRecent.handler event table
      /\ (snd (ReadRecent.handler_logging event table)
          = if statusCode (fst (ReadRecent.handler event table)) =? 500
            then Some ("Error processing event: " ++ dumps event)
            else None)).
Proof.
  split.
  - unfold Ingest.handler_logging, Ingest.handler.
    destruct (Ingest._handle amb event table) as [[r | e] table'] eqn:Hrun;
      cbn [fst snd]; split; try reflexivity.
    apply ingest_returns_no_500 in Hrun. now destruct (Z.eqb_spec (statusCode r) 500).
  - unfold ReadRecent.handler_logging, ReadRecent.handler.
    destruct (ReadRecent._handle event table) as [[r | e] table'] eqn:Hrun;
      cbn [fst snd]; split; try reflexivity.
    apply read_returns_no_500 in Hrun. now destruct (Z.eqb_spec (statusCode r) 500).
Qed.

End Logging.

(** ** The answers, all of them *)


(** ** The order of the errors *)

(** X17: the list the validator returns has at most one message for
    [severity], then at most one for [message], then at most one for
    [dateTime], in this order: never more than three, never one twice. *)
Theorem errors_in_order (d : list (string * value)) (errors : list string) :
  Ingest._validate (VDict d) = Ok errors ->
  exists a b c,
    errors = (a ++ b ++ c)%list
    /\ (a = [] \/ a = ["Missing required field: 'severity'"]
        \/ a = [invalid_severity (field d "severity")])
    /\ (b = [] \/ b = ["Missing required field: 'message'"])
    /\ (c = [] \/ c = [invalid_dateTime (field d "dateTime")]).
Proof.
  intros Hv. destruct (validate_ok_dict _ _ Hv) as (d' & [= <-] & Hh).
  rewrite (validate_hashable d Hh) in Hv. injection Hv as <-.
  exists (severity_errors (field d "severity")),
    (message_errors (field d "message")),
    (dateTime_errors (field d "dateTime")).
  split; [reflexivity |]. split; [| split].
  - destruct (field d "severity") as [| | | | s | |]; unfold severity_errors;
      try tauto.
    destruct (existsb (String.eqb s) Ingest.VALID_SEVERITIES); tauto.
  - unfold message_errors. destruct (truthy (field d "message")); tauto.
  - unfold dateTime_errors.
    destruct (is_none (field d "dateTime")
              || Re.matches Ingest.ISO8601_RE (str (field d "dateTime"))); tauto.
Qed.

Lemma errors_in_order_witness :
  exists a b c,
    ["Invalid severity 'fatal'. Must be one of: error, info, warning";
     "Missing required field: 'message'";
     "Invalid dateTime format: 'yesterday'. Expected ISO 8601."]
    = (a ++ b ++ c)%list
    /\ (a = [] \/ a = ["Missing required field: 'severity'"]
        \/ a = [invalid_severity (VStr "fatal")])
    /\ (b = [] \/ b = ["Missing required field: 'message'"])
    /\ (c = [] \/ c = [invalid_dateTime (VStr "yesterday")]).
Proof.
  exact (errors_in_order
           [("severity", VStr "fatal"); ("dateTime", VStr "yesterday")] _ eq_refl).
Defined.

(** ** The pattern checks the shape only *)

(** X18: the pattern checks no range: fourteen digits laid out as
    [dddd-dd-dd], [T] or a space, [dd:dd:dd] are accepted whatever numbers
    they spell (a month 13, a day 00, an hour 99), and so is a record that
    carries such a [dateTime]. *)
Theorem any_digits_accepted (sep : ascii) (ds : list ascii) :
  sep = "T"%char \/ sep = " "%char ->
  length ds = 14%nat ->
  forallb Re.is_digit ds = true ->
  Re.matches Ingest.ISO8601_RE (stamp sep ds) = true
  /\ Ingest._validate
       (VDict [("severity", VStr "info"); ("message", VStr "disk full");
               ("dateTime", VStr (stamp sep ds))])
     = Ok [].
Proof.
  intros Hsep Hlen Hds.
  assert (Hm : Re.matches Ingest.ISO8601_RE (stamp sep ds) = true).
  { do 14 (destruct ds as [| ? ds]; [discriminate Hlen |]).
    destruct ds; [| discriminate Hlen].
    cbn [forallb] in Hds.
    repeat match type of Hds with
           | _ && _ = true => apply andb_prop in Hds as [? Hds]
           end.
    rewrite matches_ISO8601. unfold stamp.
    rewrite list_ascii_of_string_of_list_ascii. unfold date_and_time.
    destruct Hsep as [-> | ->];
      cbn [digits expect opt_bind is_char Ascii.eqb Bool.eqb orb];
      repeat (match goal with
              | H : Re.is_digit ?c = true |- context [Re.is_digit ?c] =>
                  rewrite H
              end;
              cbn [digits expect opt_bind is_char Ascii.eqb Bool.eqb orb]);
      reflexivity. }
  split; [exact Hm |].
  apply accepted_iff. split; [| split].
  - exists "info". split; [reflexivity | now left].
  - reflexivity.
  - right. exact Hm.
Qed.

Lemma any_digits_accepted_witness :
  Re.matches Ingest.ISO8601_RE "2024-13-00T99:99:99" = true.
Proof.
  exact (proj1 (any_digits_accepted "T"
                  (list_ascii_of_string "20241300999999")
                  (or_introl eq_refl) eq_refl eq_refl)).
Defined.
